(** * redweather: the location dialog (zip_prompt.py)

    A shallow embedding of [zip_prompt.py]: the geocode resolver, the
    override store, the notifier and the two handlers of the dialog, with
    the Python values and the operating-system services they touch, and
    the properties of the specification stated over them.

    Conventions.
    - A Python [str] is a list of Unicode code points ([N]); lone
      surrogates are legal in a [str] and only rejected by the UTF-8 codec.
    - A value parsed by [json.loads] is a [value]; a JSON object is a
      finite map from keys to values.
    - Code that can raise returns a [res]; code with side effects is a
      function of the [World] (file system, upstream server, process
      table) that returns the new world next to its result. *)

From Stdlib Require Import NArith ZArith Lia SpecFloat String Ascii Bool.
From stdpp Require Import gmap strings list.

Set Warnings "-register-all".
Ltac Zify.zify_post_hook ::= Z.to_euclidean_division_equations.

Local Open Scope N_scope.

(* ===================================================================== *)
(** ** Python strings *)
(* ===================================================================== *)

(** A [str]: the sequence of its code points. *)
Abbreviation str := (list N).

(** A literal of the source, character by character. *)
Fixpoint lit (s : string) : str :=
  match s with
  | EmptyString => []
  | String a r => N_of_ascii a :: lit r
  end.
Arguments lit : simpl never.

Definition COMMA : N := 44.
Definition SPACE : N := 32.

(** [str.isspace] on one character, the set [str.strip()] removes:
    the code points whose bidirectional class is WS, B or S or whose
    category is Zs. *)
Definition isspace_char (c : N) : bool :=
  ((9 <=? c) && (c <=? 13)) || ((28 <=? c) && (c <=? 32))
  || (c =? 133) || (c =? 160) || (c =? 5760)
  || ((8192 <=? c) && (c <=? 8202))
  || (c =? 8232) || (c =? 8233) || (c =? 8239) || (c =? 8287)
  || (c =? 12288).

Fixpoint lstrip (s : str) : str :=
  match s with
  | [] => []
  | c :: r => if isspace_char c then lstrip r else s
  end.

Definition rstrip (s : str) : str := rev (lstrip (rev s)).

(** [s.strip()] *)
Definition strip (s : str) : str := rstrip (lstrip s).

(** [s.replace(c, "")] for a one-character [c]: every occurrence goes. *)
Fixpoint remove_char (c : N) (s : str) : str :=
  match s with
  | [] => []
  | x :: r => if x =? c then remove_char c r else x :: remove_char c r
  end.

(** [c in s] for a one-character [c]. *)
Fixpoint contains_char (c : N) (s : str) : bool :=
  match s with
  | [] => false
  | x :: r => (x =? c) || contains_char c r
  end.

(** [str.isdigit]: at least one character, and all of them digits.  The
    per-character test comes from the Unicode database of the
    interpreter (Numeric_Type Digit or Decimal) and is a parameter. *)
Definition str_isdigit (isdigit_char : N -> bool) (s : str) : bool :=
  match s with
  | [] => false
  | _ => forallb isdigit_char s
  end.

(** The ASCII fragment of the digit table, used to run examples. *)
Definition ascii_isdigit (c : N) : bool := (48 <=? c) && (c <=? 57).

(** Truth value of a [str] ([if s:], [not s]). *)
Definition str_truthy (s : str) : bool :=
  match s with [] => false | _ => true end.

(* ===================================================================== *)
(** ** Exceptions and results *)
(* ===================================================================== *)

(** The exception classes that occur; all of them derive from
    [Exception].  Asynchronous interrupts are outside the model. *)
Inductive exn :=
| AttributeError
| UnicodeEncodeError
| FileExistsError
| FileNotFoundError
| NotADirectoryError
| IsADirectoryError
| PermissionError
| OtherError (msg : str).

Inductive res (A : Type) :=
| Ok (a : A)
| Raise (e : exn).
Arguments Ok {A} a.
Arguments Raise {A} e.

Definition res_bind {A B} (r : res A) (k : A -> res B) : res B :=
  match r with
  | Ok a => k a
  | Raise e => Raise e
  end.

(* ===================================================================== *)
(** ** The UTF-8 codec (encoding="utf-8", errors="strict") *)
(* ===================================================================== *)

Definition is_surrogate (c : N) : bool := (55296 <=? c) && (c <=? 57343).

(** The bytes of one code point; [None] is UnicodeEncodeError. *)
Definition utf8_encode_cp (c : N) : option (list N) :=
  if c <? 128 then Some [c]
  else if c <? 2048 then Some [192 + c / 64; 128 + c mod 64]
  else if c <? 65536 then
    if is_surrogate c then None
    else Some [224 + c / 4096; 128 + (c / 64) mod 64; 128 + c mod 64]
  else if c <? 1114112 then
    Some [240 + c / 262144; 128 + (c / 4096) mod 64;
          128 + (c / 64) mod 64; 128 + c mod 64]
  else None.

Fixpoint utf8_encode (s : str) : option (list N) :=
  match s with
  | [] => Some []
  | c :: r =>
      match utf8_encode_cp c, utf8_encode r with
      | Some b, Some bs => Some (b ++ bs)
      | _, _ => None
      end
  end.

Definition is_cont (b : N) : bool := (128 <=? b) && (b <? 192).

(** The strict decoder: overlong forms, surrogates and values past
    U+10FFFF are rejected ([None] is UnicodeDecodeError). *)
Fixpoint utf8_decode (bs : list N) : option str :=
  match bs with
  | [] => Some []
  | b1 :: r1 =>
      if b1 <? 128 then cons b1 <$> utf8_decode r1
      else if b1 <? 194 then None
      else if b1 <? 224 then
        match r1 with
        | b2 :: r2 =>
            if is_cont b2
            then cons ((b1 - 192) * 64 + (b2 - 128)) <$> utf8_decode r2
            else None
        | _ => None
        end
      else if b1 <? 240 then
        match r1 with
        | b2 :: b3 :: r3 =>
            let c := (b1 - 224) * 4096 + (b2 - 128) * 64 + (b3 - 128) in
            if is_cont b2 && is_cont b3 && (2048 <=? c) && negb (is_surrogate c)
            then cons c <$> utf8_decode r3
            else None
        | _ => None
        end
      else if b1 <? 245 then
        match r1 with
        | b2 :: b3 :: b4 :: r4 =>
            let c := (b1 - 240) * 262144 + (b2 - 128) * 4096
                     + (b3 - 128) * 64 + (b4 - 128) in
            if is_cont b2 && is_cont b3 && is_cont b4
               && (65536 <=? c) && (c <? 1114112)
            then cons c <$> utf8_decode r4
            else None
        | _ => None
        end
      else None
  end.

(* ===================================================================== *)
(** ** urllib.parse.urlencode *)
(* ===================================================================== *)

(** The characters [quote] never escapes: letters, digits and "_.-~". *)
Definition always_safe (b : N) : bool :=
  ((48 <=? b) && (b <=? 57)) || ((65 <=? b) && (b <=? 90))
  || ((97 <=? b) && (b <=? 122))
  || (b =? 95) || (b =? 46) || (b =? 45) || (b =? 126).

Definition hex_digit (n : N) : N := if n <? 10 then 48 + n else 55 + n.

(** One byte under [quote_plus]: kept, "+" for a space, or "%XX". *)
Definition quote_byte (b : N) : str :=
  if always_safe b then [b]
  else if b =? SPACE then [43]
  else [37; hex_digit (b / 16); hex_digit (b mod 16)].

(** [quote_plus(s)] with the default codec. *)
Definition quote_plus (s : str) : res str :=
  match utf8_encode s with
  | Some bs => Ok (flat_map quote_byte bs)
  | None => Raise UnicodeEncodeError
  end.

(** [urlencode(d)] for a dict of string keys and values, in order:
    "k=v" pairs joined by "&". *)
Fixpoint urlencode (kvs : list (str * str)) : res str :=
  match kvs with
  | [] => Ok []
  | (k, v) :: rest =>
      res_bind (quote_plus k) (fun k' =>
      res_bind (quote_plus v) (fun v' =>
      match rest with
      | [] => Ok (k' ++ lit "=" ++ v')
      | _ => res_bind (urlencode rest) (fun r' =>
               Ok (k' ++ lit "=" ++ v' ++ lit "&" ++ r'))
      end))
  end.

(* ===================================================================== *)
(** ** Python values: what [json.loads] returns *)
(* ===================================================================== *)

Inductive value :=
| VNone
| VBool (b : bool)
| VInt (n : Z)
| VFloat (f : spec_float)
| VStr (s : str)
| VList (l : list value)
| VDict (d : gmap str value).

(** Truth value of an object ([if v:], [v or w]). *)
Definition truthy (v : value) : bool :=
  match v with
  | VNone => false
  | VBool b => b
  | VInt n => negb (n =? 0)%Z
  | VFloat (S754_zero _) => false
  | VFloat _ => true
  | VStr s => str_truthy s
  | VList [] => false
  | VList _ => true
  | VDict d => negb (bool_decide (d = ∅))
  end.

(** [a or b] *)
Definition py_or (a b : value) : value := if truthy a then a else b.

(** [d.get(k)] on a dict: the entry, or [None]. *)
Definition dict_get (d : gmap str value) (k : str) : value :=
  default VNone (d !! k).

(** [k in d] *)
Definition dict_has (d : gmap str value) (k : str) : bool :=
  bool_decide (is_Some (d !! k)).

(** [v.get(k)] on an arbitrary value: only a dict has the method. *)
Definition py_get (v : value) (k : str) : res value :=
  match v with
  | VDict d => Ok (dict_get d k)
  | _ => Raise AttributeError
  end.

(** The dict [geocode] returns on success, a record of its four keys. *)
Record LocationResult := mkLocation {
  label : value;
  lat : value;
  lon : value;
  raw_query : str
}.

(* ===================================================================== *)
(** ** The world: file system, upstream server, process table *)
(* ===================================================================== *)

(** A path is the list of its components below the root. *)
Abbreviation path := (list string).

Inductive node :=
| Dir
| File (content : list N).

(** What [urlopen(url).read()] followed by [json.loads] comes to: the
    parsed body, or an exception [e] of which only [str(e)] is used. *)
Inductive fetch :=
| Body (data : value)
| Failed (msg : str).

(** What [subprocess.run(argv, check=False)] comes to: the child ran and
    exited with a status, or the call raised (no such program, ...). *)
Inductive run_outcome :=
| Completed (returncode : Z)
| RunRaised (e : exn).

(** The world: the files, the upstream server, what running a program
    comes to, the requests made so far, and the processes started so far,
    each with the files as it found them when it started. *)
Record World := mkWorld {
  fs : gmap path node;
  upstream : str -> fetch;
  pkill : run_outcome;
  requests : list str;
  spawned : list (list string * gmap path node)
}.

(** Computations on a state [S]; a raise keeps the effects done so far. *)
Definition M (S A : Type) : Type := S -> res A * S.

Definition ret {S A} (a : A) : M S A := fun w => (Ok a, w).
Definition bind {S A B} (m : M S A) (k : A -> M S B) : M S B :=
  fun w => match m w with
           | (Ok a, w') => k a w'
           | (Raise e, w') => (Raise e, w')
           end.
Definition lift {S A} (r : res A) : M S A := fun w => (r, w).

(** [try: m except Exception as e: h e] *)
Definition try_except {S A} (m : M S A) (h : exn -> M S A) : M S A :=
  fun w => match m w with
           | (Ok a, w') => (Ok a, w')
           | (Raise e, w') => h e w'
           end.

Declare Scope world_scope.
Delimit Scope world_scope with world.
Notation "x <- m ;; k" := (bind m (fun x => k))
  (at level 100, m at next level, right associativity) : world_scope.
Notation "m ;;; k" := (bind m (fun _ => k))
  (at level 100, right associativity) : world_scope.

Definition set_fs (t : gmap path node) (w : World) : World :=
  mkWorld t (upstream w) (pkill w) (requests w) (spawned w).
Definition set_pkill (o : run_outcome) (w : World) : World :=
  mkWorld (fs w) (upstream w) o (requests w) (spawned w).

(** The request of [geocode]: [urlopen], [read] and [json.loads] as one
    step that records the URL and asks the upstream. *)
Definition fetch_json (url : str) : World -> fetch * World :=
  fun w => (upstream w url,
            mkWorld (fs w) (upstream w) (pkill w) (requests w ++ [url]) (spawned w)).

(* ===================================================================== *)
(** ** geocode *)
(* ===================================================================== *)

Definition ZIP_ENDPOINT : str := lit "https://api.openweathermap.org/geo/1.0/zip?".
Definition DIRECT_ENDPOINT : str := lit "https://api.openweathermap.org/geo/1.0/direct?".

Definition MSG_MISSING_KEY : str := lit "Missing OWM_API_KEY".
Definition MSG_ENTER : str := lit "Enter a ZIP or city".
Definition MSG_NO_RESULT : str := lit "No result".
Definition MSG_REQUEST_ERROR : str := lit "Request error: ".

(** [not API_KEY] for the value of [os.environ.get]. *)
Definition key_missing (api_key : option str) : bool :=
  match api_key with
  | None => true
  | Some k => negb (str_truthy k)
  end.

Section Resolver.

(** The digit table of the Unicode database. *)
Variable isdigit_char : N -> bool.
(** [str(v)] of a value that is not a string: the interpreter's
    rendering of numbers, booleans, [None], lists and dicts. *)
Variable py_repr : value -> str.

(** [f"{v}"] *)
Definition fstr (v : value) : str :=
  match v with
  | VStr s => s
  | _ => py_repr v
  end.

(** Line 24. *)
Definition is_zip (q : str) : bool :=
  str_isdigit isdigit_char (remove_char SPACE (remove_char COMMA q)).

(** Line 26. *)
Definition zip_param (q : str) : str :=
  if contains_char COMMA q then q else q ++ lit ",US".

(** Lines 25-35: the URL of the request. *)
Definition build_url (key q : str) : res str :=
  if is_zip q then
    res_bind (urlencode [(lit "zip", zip_param q); (lit "appid", key)])
             (fun qs => Ok (ZIP_ENDPOINT ++ qs))
  else
    res_bind (urlencode [(lit "q", q); (lit "limit", lit "1"); (lit "appid", key)])
             (fun qs => Ok (DIRECT_ENDPOINT ++ qs)).

(** Lines 45-50: the answer of the ZIP endpoint. *)
Definition zip_result (q : str) (data : value)
  : option LocationResult * option str :=
  match data with
  | VDict d =>
      if negb (dict_has d (lit "lat")) || negb (dict_has d (lit "lon"))
      then (None, Some MSG_NO_RESULT)
      else
        let name := py_or (dict_get d (lit "name")) (VStr (lit "ZIP " ++ q)) in
        let country := dict_get d (lit "country") in
        let label :=
          if truthy country
          then VStr (fstr name ++ lit ", " ++ fstr country)
          else name in
        (Some (mkLocation label (dict_get d (lit "lat"))
                          (dict_get d (lit "lon")) q), None)
  | _ => (None, Some MSG_NO_RESULT)
  end.

(** Lines 52-68: the answer of the search endpoint. *)
Definition direct_result (q : str) (data : value)
  : res (option LocationResult * option str) :=
  match data with
  | VList (first :: _) =>
      res_bind (py_get first (lit "name")) (fun name0 =>
      let name := py_or name0 (VStr q) in
      res_bind (py_get first (lit "country")) (fun country =>
      res_bind (py_get first (lit "state")) (fun state =>
      let label := name in
      let label :=
        if truthy country
        then VStr (fstr label ++ lit ", " ++ fstr country) else label in
      let label :=
        if truthy state
        then VStr (fstr label ++ lit " (" ++ fstr state ++ lit ")") else label in
      res_bind (py_get first (lit "lat")) (fun la =>
      res_bind (py_get first (lit "lon")) (fun lo =>
      Ok (Some (mkLocation label la lo q), None))))))
  | _ => Ok (None, Some MSG_NO_RESULT)
  end.

(** [geocode(query)], with the module's [API_KEY] as first argument.
    The URL is built before the [try]; the request and the parsing of
    its body are inside it. *)
Definition geocode (api_key : option str) (query : str)
  : M World (option LocationResult * option str) :=
  if key_missing api_key then ret (None, Some MSG_MISSING_KEY)
  else
    let key := default [] api_key in
    let q := strip query in
    if negb (str_truthy q) then ret (None, Some MSG_ENTER)
    else
      (url <- lift (build_url key q) ;;
       fun w =>
         match fetch_json url w with
         | (Failed msg, w') =>
             (Ok (None, Some (MSG_REQUEST_ERROR ++ msg)), w')
         | (Body data, w') =>
             if is_zip q then (Ok (zip_result q data), w')
             else (direct_result q data, w')
         end)%world.

End Resolver.

(* ===================================================================== *)
(** ** The override store and the notifier *)
(* ===================================================================== *)

(** [os.makedirs(p, exist_ok=True)], one component after the other:
    a missing directory is created, an existing one is kept, a regular
    file in the way is an error.

    Scope of the file-system model: a node is a directory or a regular
    file and nothing else is recorded.  Permission bits, read-only mounts,
    quotas, symbolic links and the other reasons for which the real calls
    raise PermissionError or another OSError are not modelled: here
    [makedirs] and [open] fail on a node of the wrong kind only.  A
    statement below that needs the real call to return therefore takes
    that return as a hypothesis, or is explicitly about a file system
    "that lets the save through" in the sense of [can_save]. *)
Fixpoint mkdir_chain (base : path) (todo : list string) (t : gmap path node)
  : res unit * gmap path node :=
  match todo with
  | [] => (Ok tt, t)
  | c :: rest =>
      let p := base ++ [c] in
      match t !! p with
      | Some Dir => mkdir_chain p rest t
      | Some (File _) =>
          (Raise (match rest with
                  | [] => FileExistsError
                  | _ => NotADirectoryError
                  end), t)
      | None => mkdir_chain p rest (<[p := Dir]> t)
      end
  end.

Definition makedirs (p : path) : M World unit :=
  fun w => let '(r, t) := mkdir_chain [] p (fs w) in (r, set_fs t w).

(** Is [p] a directory?  The root always is. *)
Definition is_dir (t : gmap path node) (p : path) : bool :=
  match p with
  | [] => true
  | _ => match t !! p with Some Dir => true | _ => false end
  end.

(** [open(p, "w", encoding="utf-8")]: the file is created or truncated. *)
Definition open_w (p : path) : M World unit :=
  fun w =>
    let t := fs w in
    if is_dir t p then (Raise IsADirectoryError, w)
    else
      match t !! removelast p with
      | Some (File _) => (Raise NotADirectoryError, w)
      | _ =>
          if is_dir t (removelast p)
          then (Ok tt, set_fs (<[p := File []]> t) w)
          else (Raise FileNotFoundError, w)
      end.

(** [f.write(s)] and the close of the [with] block: the encoded text is
    appended to what the open file holds.  (In text mode a line feed is
    written as [os.linesep], which is a line feed itself on the systems
    the status bar runs on.) *)
Definition file_write (p : path) (s : str) : M World unit :=
  fun w =>
    match utf8_encode s with
    | None => (Raise UnicodeEncodeError, w)
    | Some bs =>
        let old := match fs w !! p with Some (File c) => c | _ => [] end in
        (Ok tt, set_fs (<[p := File (old ++ bs)]> (fs w)) w)
    end.

(** Reading a file back as UTF-8 text. *)
Definition read_text (t : gmap path node) (p : path) : option str :=
  match t !! p with
  | Some (File bs) => utf8_decode bs
  | _ => None
  end.

(** [subprocess.run(argv, check=False)]: when the program can be run, a
    process is started, finds the files as they are now, and its exit
    status is returned; when it cannot (no such program, ...), the call
    raises and no process is started. *)
Definition subprocess_run (argv : list string) : M World Z :=
  fun w =>
    match pkill w with
    | Completed rc =>
        (Ok rc, mkWorld (fs w) (upstream w) (pkill w) (requests w)
                        (spawned w ++ [(argv, fs w)]))
    | RunRaised e => (Raise e, w)
    end.

(** The command line of the notifier. *)
Definition PKILL_ARGV : list string := ["pkill"; "-SIGUSR2"; "waybar"]%string.

(** The processes started once the notifier has been run in [w]. *)
Definition after_notify (w : World) : list (list string * gmap path node) :=
  match pkill w with
  | Completed _ => spawned w ++ [(PKILL_ARGV, fs w)]
  | RunRaised _ => spawned w
  end.

Section Store.

(** The home directory, [os.path.expanduser("~")]. *)
Variable home : path.

Definition CACHE_DIR : path := home ++ [".cache"; "redweather"]%string.
Definition OVERRIDE_FILE : path := CACHE_DIR ++ ["zip_override"%string].

Definition save_override (raw_query : str) : M World unit :=
  (makedirs CACHE_DIR ;;;
   open_w OVERRIDE_FILE ;;;
   file_write OVERRIDE_FILE (strip raw_query))%world.

Definition reload_waybar : M World unit :=
  try_except
    (subprocess_run ["pkill"; "-SIGUSR2"; "waybar"]%string ;;; ret tt)%world
    (fun _ => ret tt).

End Store.

(* ===================================================================== *)
(** ** The dialog *)
(* ===================================================================== *)

(** The widgets the handlers read and write, and the slot [current_raw]. *)
Record Dialog := mkDialog {
  entry : str;
  status_var : str;
  result_var : str;
  save_enabled : bool;
  current_raw : option str;
  destroyed : bool
}.

Definition set_status (s : str) (ui : Dialog) : Dialog :=
  mkDialog (entry ui) s (result_var ui) (save_enabled ui) (current_raw ui) (destroyed ui).
Definition set_result (s : str) (ui : Dialog) : Dialog :=
  mkDialog (entry ui) (status_var ui) s (save_enabled ui) (current_raw ui) (destroyed ui).
Definition set_save (b : bool) (ui : Dialog) : Dialog :=
  mkDialog (entry ui) (status_var ui) (result_var ui) b (current_raw ui) (destroyed ui).
Definition set_current_raw (r : option str) (ui : Dialog) : Dialog :=
  mkDialog (entry ui) (status_var ui) (result_var ui) (save_enabled ui) r (destroyed ui).
Definition destroy (ui : Dialog) : Dialog :=
  mkDialog (entry ui) (status_var ui) (result_var ui) (save_enabled ui) (current_raw ui) true.

(** A handler runs on the widgets and the world together. *)
Definition on_ui (f : Dialog -> Dialog) : M (Dialog * World) unit :=
  fun s => (Ok tt, (f (fst s), snd s)).
Definition on_world {A} (m : M World A) : M (Dialog * World) A :=
  fun s => let '(r, w) := m (snd s) in (r, (fst s, w)).
Definition get_ui : M (Dialog * World) Dialog :=
  fun s => (Ok (fst s), s).

Definition INITIAL_STATUS : str := lit "Enter location and press Check".
Definition MSG_OK : str := lit "OK".
Definition MSG_NOTHING : str := lit "Nothing to save".
(** "→ ", the prefix of the result line. *)
Definition ARROW : str := [8594; 32].

Section Handlers.

Variable isdigit_char : N -> bool.
Variable py_repr : value -> str.
Variable api_key : option str.
Variable home : path.

Definition do_check : M (Dialog * World) unit :=
  (ui <- get_ui ;;
   let q := strip (entry ui) in
   on_ui (set_result []) ;;;
   on_ui (set_save false) ;;;
   r <- on_world (geocode isdigit_char py_repr api_key q) ;;
   let '(info, err) := r in
   if match err with Some e => str_truthy e | None => false end
   then on_ui (set_status (default [] err))
   else
     match info with
     | None => on_ui (set_status MSG_NO_RESULT)
     | Some i =>
         on_ui (set_result (ARROW ++ fstr py_repr (label i))) ;;;
         on_ui (set_status MSG_OK) ;;;
         on_ui (set_current_raw (Some (raw_query i))) ;;;
         on_ui (set_save true)
     end)%world.

Definition do_save : M (Dialog * World) unit :=
  (ui <- get_ui ;;
   let raw := current_raw ui in
   if negb (match raw with Some r => str_truthy r | None => false end)
   then on_ui (set_status MSG_NOTHING)
   else
     on_world (save_override home (default [] raw)) ;;;
     on_world (reload_waybar) ;;;
     on_ui destroy)%world.

End Handlers.

(** The dialog once [do_check] has blanked the result line and closed
    Save, before it asks the resolver. *)
Definition cleared (ui : Dialog) : Dialog := set_save false (set_result [] ui).

(** The dialog as [main] builds it. *)
Definition initial_dialog : Dialog :=
  mkDialog [] INITIAL_STATUS [] false None false.

(** Renders every non-string as a fixed marker; it stands for [str] in
    the closed examples below, none of which formats a non-string. *)
Definition opaque_repr (v : value) : str := lit "<object>".

(** A world with an empty file system whose upstream always answers
    with [data], and a world whose upstream always fails. *)
Definition world_answering (data : value) : World :=
  mkWorld ∅ (fun _ => Body data) (Completed 0) [] [].
Definition world_failing (msg : str) : World :=
  mkWorld ∅ (fun _ => Failed msg) (Completed 0) [] [].

(** The chain of directories [mkdir_chain] walks through. *)
Fixpoint chain (base : path) (todo : list string) : list path :=
  match todo with
  | [] => []
  | c :: rest => (base ++ [c]) :: chain (base ++ [c]) rest
  end.

Definition is_file (t : gmap path node) (p : path) : bool :=
  match t !! p with Some (File _) => true | _ => false end.

(** The file system lets [save_override] through: no regular file sits
    on the way to the cache directory, and the override file is not a
    directory. *)
Definition can_save (home : path) (t : gmap path node) : bool :=
  forallb (fun p => negb (is_file t p)) (chain [] (CACHE_DIR home))
  && negb (is_dir t (OVERRIDE_FILE home)).

(** *** Data of the closed examples *)

Definition KEY : option str := Some (lit "KEY").

(** {"lat":34.1,"lon":-118.4,"name":"Beverly Hills","country":"US"} *)
Definition beverly_hills : gmap str value :=
  <[lit "lat" := VFloat (S754_finite false 4799148352916685 (-47))]>
  (<[lit "lon" := VFloat (S754_finite true 8331659310635418 (-46))]>
  (<[lit "name" := VStr (lit "Beverly Hills")]>
  (<[lit "country" := VStr (lit "US")]> ∅))).

(** {"lat":48.85,"lon":2.35,"name":"Paris","country":"FR"} *)
Definition paris : gmap str value :=
  <[lit "lat" := VFloat (S754_finite false 6875026306157773 (-47))]>
  (<[lit "lon" := VFloat (S754_finite false 5291729562160333 (-51))]>
  (<[lit "name" := VStr (lit "Paris")]>
  (<[lit "country" := VStr (lit "FR")]> ∅))).

(** {"lat":1,"lon":2,"name":"X","country":""}: a country that is there
    and empty. *)
Definition empty_country : gmap str value :=
  <[lit "lat" := VInt 1]>
  (<[lit "lon" := VInt 2]>
  (<[lit "name" := VStr (lit "X")]>
  (<[lit "country" := VStr []]> ∅))).

(** {"name":"Paris"}: a match without coordinates. *)
Definition no_coordinates : gmap str value :=
  <[lit "name" := VStr (lit "Paris")]> ∅.

Definition home_example : path := ["home"; "user"]%string.

(** A file system in which a regular file sits where the cache
    directory should be. *)
Definition fs_blocked : gmap path node :=
  <[["home"]%string := Dir]>
  (<[["home"; "user"]%string := Dir]>
  (<[["home"; "user"; ".cache"]%string := Dir]>
  (<[CACHE_DIR home_example := File []]> ∅))).

Definition world_blocked : World :=
  mkWorld fs_blocked (fun _ => Failed []) (Completed 0) [] [].

(** The dialog after a successful check of "90210". *)
Definition dialog_checked : Dialog :=
  mkDialog (lit "90210") MSG_OK (ARROW ++ lit "Beverly Hills, US") true
           (Some (lit "90210")) false.

(** Text: code points the UTF-8 codec accepts.  Every code point of a
    [str] is below 0x110000; a lone surrogate is the one thing a [str]
    can hold that is not text. *)
Definition is_scalar (c : N) : bool := (c <? 1114112) && negb (is_surrogate c).
Definition is_text (s : str) : bool := forallb is_scalar s.

(** *** The event loop of [main] *)

Definition set_entry (s : str) (ui : Dialog) : Dialog :=
  mkDialog s (status_var ui) (result_var ui) (save_enabled ui) (current_raw ui) (destroyed ui).

(** What can happen while [root.mainloop()] runs: the user edits the
    entry, presses Check (or Return in the entry, bound to the same
    handler), presses Save, presses Cancel; and the world outside (files,
    upstream, processes) changes under the dialog. *)
Inductive event :=
| Typed (text : str)
| CheckPressed
| SavePressed
| CancelPressed
| Outside (w : World).

Section MainLoop.

Variable isdigit_char : N -> bool.
Variable py_repr : value -> str.
Variable api_key : option str.
Variable home : path.

(** One turn of the loop.  A destroyed window takes no more events; a
    disabled button ignores the press; an exception that leaves a handler
    is reported by the toolkit and the loop goes on with what the handler
    had done. *)
Definition dispatch (s : Dialog * World) (e : event) : Dialog * World :=
  if destroyed (fst s) then s
  else
    match e with
    | Typed text => (set_entry text (fst s), snd s)
    | CheckPressed => snd (do_check isdigit_char py_repr api_key s)
    | SavePressed =>
        if save_enabled (fst s) then snd (do_save home s) else s
    | CancelPressed => (destroy (fst s), snd s)
    | Outside w => (fst s, w)
    end.

Definition mainloop (evs : list event) (s : Dialog * World) : Dialog * World :=
  fold_left dispatch evs s.

End MainLoop.

(** What the dialog keeps true of its widgets: the status line is never
    blank and never the "Nothing to save" notice, and while Save is open
    the status is "OK", the result line shows an arrow, and the slot holds
    a non-empty, trimmed text. *)
Definition dialog_ok (ui : Dialog) : Prop :=
  status_var ui <> []
  /\ status_var ui <> MSG_NOTHING
  /\ (save_enabled ui = true ->
      status_var ui = MSG_OK
      /\ ARROW `prefix_of` result_var ui
      /\ exists r, current_raw ui = Some r /\ r <> [] /\ is_text r = true
                   /\ strip r = r).

(** The characters a query string is made of once [quote_plus] has gone
    over it: unreserved ones, "+" and "%". *)
Definition url_safe (c : N) : bool := always_safe c || (c =? 43) || (c =? 37).

(** A world in which a directory sits where the override file goes. *)
Definition world_override_is_dir : World :=
  mkWorld (<[OVERRIDE_FILE home_example := Dir]> ∅) (fun _ => Failed [])
          (Completed 0) [] [].

(* ===================================================================== *)
(** * Properties *)
(* ===================================================================== *)

(** ** Strings *)

Ltac cmp_cases :=
  repeat match goal with
    | |- context [?a <? ?b] => destruct (N.ltb_spec a b); try lia
    | |- context [?a <=? ?b] => destruct (N.leb_spec a b); try lia
    end.

Lemma str_truthy_false (s : str) : str_truthy s = false <-> s = [].
Proof. destruct s; simpl; split; congruence. Qed.

Lemma str_isdigit_spec isd (s : str) :
  str_isdigit isd s = true <-> s <> [] /\ forallb isd s = true.
Proof.
  destruct s as [|c r]; simpl.
  - split; [discriminate | intros [H _]; congruence].
  - split; [intros H; split; [discriminate | exact H] | intros [_ H]; exact H].
Qed.

Lemma lstrip_head (s : str) :
  match lstrip s with
  | [] => True
  | c :: _ => isspace_char c = false
  end.
Proof.
  induction s as [|c r IH]; simpl; [exact I |].
  destruct (isspace_char c) eqn:E; [exact IH | exact E].
Qed.

Lemma lstrip_fixed c (r : str) :
  isspace_char c = false -> lstrip (c :: r) = c :: r.
Proof. intros H. simpl. rewrite H. reflexivity. Qed.

Lemma lstrip_snoc (l : str) c :
  isspace_char c = false -> lstrip (l ++ [c]) = lstrip l ++ [c].
Proof.
  intros H. induction l as [|x l IH]; simpl.
  - rewrite H. reflexivity.
  - destruct (isspace_char x); [exact IH | reflexivity].
Qed.

Lemma rstrip_cons c (r : str) :
  isspace_char c = false -> rstrip (c :: r) = c :: rstrip r.
Proof.
  intros H. unfold rstrip. simpl rev at 2.
  rewrite lstrip_snoc by exact H.
  rewrite rev_app_distr. reflexivity.
Qed.

Lemma rstrip_rstrip (s : str) : rstrip (rstrip s) = rstrip s.
Proof.
  unfold rstrip. rewrite rev_involutive.
  pose proof (lstrip_head (rev s)) as Hh.
  destruct (lstrip (rev s)) as [|c r] eqn:E; [reflexivity |].
  rewrite lstrip_fixed by exact Hh. reflexivity.
Qed.

(** Stripping twice is stripping once: [do_check] strips the entry,
    [geocode] strips its argument, [save_override] strips again. *)
Lemma strip_idempotent (s : str) : strip (strip s) = strip s.
Proof.
  unfold strip.
  pose proof (lstrip_head s) as Hh.
  destruct (lstrip s) as [|c r] eqn:E; [reflexivity |].
  rewrite rstrip_cons by exact Hh.
  rewrite lstrip_fixed by exact Hh.
  rewrite <- rstrip_cons by exact Hh.
  apply rstrip_rstrip.
Qed.

(** ** The UTF-8 codec *)

Lemma utf8_decode_cp c b rest :
  utf8_encode_cp c = Some b ->
  utf8_decode (b ++ rest) = cons c <$> utf8_decode rest.
Proof.
  unfold utf8_encode_cp, is_surrogate. intros H.
  destruct (N.ltb_spec c 128).
  { injection H as <-. simpl. cmp_cases. reflexivity. }
  destruct (N.ltb_spec c 2048).
  { injection H as <-. cbn [app utf8_decode]. unfold is_cont. cmp_cases.
    cbn [andb]. do 2 f_equal. lia. }
  destruct (N.ltb_spec c 65536).
  { destruct (N.leb_spec 55296 c); destruct (N.leb_spec c 57343);
      cbn [andb] in H; try discriminate;
      injection H as <-; cbn [app utf8_decode]; unfold is_cont, is_surrogate;
      cmp_cases; cbn [andb negb]; do 2 f_equal; lia. }
  destruct (N.ltb_spec c 1114112); [| discriminate].
  injection H as <-. cbn [app utf8_decode]. unfold is_cont.
  cmp_cases. cbn [andb]. do 2 f_equal. lia.
Qed.

(** Decoding inverts encoding. *)
Lemma utf8_roundtrip (s : str) bs :
  utf8_encode s = Some bs -> utf8_decode bs = Some s.
Proof.
  revert bs. induction s as [|c r IH]; intros bs H; simpl in H.
  - injection H as <-. reflexivity.
  - destruct (utf8_encode_cp c) as [b|] eqn:Ec; [| discriminate].
    destruct (utf8_encode r) as [br|] eqn:Er; [| discriminate].
    injection H as <-.
    rewrite (utf8_decode_cp c b br Ec), (IH br eq_refl). reflexivity.
Qed.

(** What the codec accepts is text, and nothing else. *)
Lemma utf8_encode_cp_some c :
  is_Some (utf8_encode_cp c) <-> is_scalar c = true.
Proof.
  unfold utf8_encode_cp, is_scalar, is_surrogate.
  cmp_cases; cbn [andb negb]; split; intros Hx; try (eexists; reflexivity);
    try reflexivity; try discriminate Hx; destruct Hx as [b Hx]; discriminate Hx.
Qed.

Lemma utf8_encode_some (s : str) :
  is_Some (utf8_encode s) <-> is_text s = true.
Proof.
  induction s as [|c r IH]; simpl.
  - split; [reflexivity | eexists; reflexivity].
  - rewrite andb_true_iff, <- IH, <- utf8_encode_cp_some.
    destruct (utf8_encode_cp c), (utf8_encode r); split;
      try (intros [[b Hb] [bs Hbs]]); try (intros [b Hb]);
      try discriminate; repeat split; eexists; reflexivity.
Qed.

Lemma is_text_app (a b : str) :
  is_text (a ++ b) = is_text a && is_text b.
Proof. apply forallb_app. Qed.

Lemma is_text_lstrip (s : str) : is_text s = true -> is_text (lstrip s) = true.
Proof.
  induction s as [|c r IH]; simpl; [reflexivity |].
  intros H. destruct (isspace_char c); [| exact H].
  apply andb_true_iff in H as [_ H]. apply IH, H.
Qed.

Lemma is_text_rev (s : str) : is_text (rev s) = is_text s.
Proof.
  induction s as [|c r IH]; simpl; [reflexivity |].
  rewrite is_text_app, IH. simpl. rewrite andb_true_r. apply andb_comm.
Qed.

(** Trimming text leaves text. *)
Lemma is_text_strip (s : str) : is_text s = true -> is_text (strip s) = true.
Proof.
  intros H. unfold strip, rstrip. rewrite is_text_rev.
  apply is_text_lstrip. rewrite is_text_rev. apply is_text_lstrip, H.
Qed.

Lemma quote_plus_ok (s : str) x : quote_plus s = Ok x -> is_text s = true.
Proof.
  unfold quote_plus. intros H. apply utf8_encode_some.
  destruct (utf8_encode s); [eexists; reflexivity | discriminate].
Qed.

(** A query string is only built from text. *)
Lemma urlencode_ok k v rest x :
  urlencode ((k, v) :: rest) = Ok x -> is_text v = true.
Proof.
  simpl. destruct (quote_plus k); [| discriminate]. simpl.
  destruct (quote_plus v) eqn:E; [| discriminate]. intros _.
  exact (quote_plus_ok _ _ E).
Qed.

(** ** The resolver *)

Lemma contains_char_spec c (s : str) : contains_char c s = true <-> c ∈ s.
Proof.
  induction s as [|x r IH]; simpl.
  - split; [discriminate | intros H; inversion H].
  - rewrite orb_true_iff, IH, N.eqb_eq, elem_of_cons.
    split; intros [H | H]; auto.
Qed.

Lemma contains_char_false c (s : str) : contains_char c s = false <-> c ∉ s.
Proof.
  rewrite <- contains_char_spec. destruct (contains_char c s); split; congruence.
Qed.

Section ResolverProperties.

Variable isd : N -> bool.
Variable repr : value -> str.

(** The first guard: nothing is touched. *)
Lemma geocode_no_key key query w :
  key_missing key = true ->
  geocode isd repr key query w = (Ok (None, Some MSG_MISSING_KEY), w).
Proof. intros H. unfold geocode. rewrite H. reflexivity. Qed.

(** The second guard: nothing is touched either. *)
Lemma geocode_blank key query w :
  key_missing key = false -> strip query = [] ->
  geocode isd repr key query w = (Ok (None, Some MSG_ENTER), w).
Proof. intros H1 H2. unfold geocode. rewrite H1, H2. reflexivity. Qed.

(** Past the guards with a URL: one request, then the path's answer. *)
Lemma geocode_run key query w url :
  key_missing key = false -> strip query <> [] ->
  build_url isd (default [] key) (strip query) = Ok url ->
  geocode isd repr key query w =
    (match upstream w url with
     | Failed msg => Ok (None, Some (MSG_REQUEST_ERROR ++ msg))
     | Body data =>
         if is_zip isd (strip query)
         then Ok (zip_result repr (strip query) data)
         else direct_result repr (strip query) data
     end,
     mkWorld (fs w) (upstream w) (pkill w) (requests w ++ [url]) (spawned w)).
Proof.
  intros H1 H2 H3. unfold geocode. rewrite H1.
  destruct (strip query) as [|c r] eqn:E; [congruence |].
  cbn [str_truthy negb]. unfold bind, lift. rewrite H3.
  unfold fetch_json. destruct (upstream w url); [| reflexivity].
  destruct (is_zip isd (c :: r)); reflexivity.
Qed.

(** Past the guards without one: the codec's error escapes, and no
    request is made. *)
Lemma geocode_url_raise key query w e :
  key_missing key = false -> strip query <> [] ->
  build_url isd (default [] key) (strip query) = Raise e ->
  geocode isd repr key query w = (Raise e, w).
Proof.
  intros H1 H2 H3. unfold geocode. rewrite H1.
  destruct (strip query) as [|c r] eqn:E; [congruence |].
  cbn [str_truthy negb]. unfold bind, lift. rewrite H3. reflexivity.
Qed.

Lemma build_url_zip key q url :
  is_zip isd q = true -> build_url isd key q = Ok url ->
  exists qs,
    urlencode [(lit "zip", zip_param q); (lit "appid", key)] = Ok qs
    /\ url = ZIP_ENDPOINT ++ qs.
Proof.
  intros Hz. unfold build_url. rewrite Hz.
  destruct (urlencode _) as [qs|e]; simpl; [| discriminate].
  intros [= <-]. eauto.
Qed.

Lemma build_url_direct key q url :
  is_zip isd q = false -> build_url isd key q = Ok url ->
  exists qs,
    urlencode [(lit "q", q); (lit "limit", lit "1"); (lit "appid", key)] = Ok qs
    /\ url = DIRECT_ENDPOINT ++ qs.
Proof.
  intros Hz. unfold build_url. rewrite Hz.
  destruct (urlencode _) as [qs|e]; simpl; [| discriminate].
  intros [= <-]. eauto.
Qed.

(** C1, as amended.  The input is sent to the ZIP endpoint and answered
    by the ZIP branch exactly when, commas and spaces removed, something
    remains and all of it is digits; an input of which nothing remains
    goes to the search endpoint with every other input. *)
Theorem C1_classification key query w :
  key_missing key = false -> strip query <> [] ->
  let q := strip query in
  let rest := remove_char SPACE (remove_char COMMA q) in
  (is_zip isd q = true <-> rest <> [] /\ forallb isd rest = true)
  /\ (rest = [] -> is_zip isd q = false)
  /\ (forall url data,
        build_url isd (default [] key) q = Ok url ->
        upstream w url = Body data ->
        if is_zip isd q
        then ZIP_ENDPOINT `prefix_of` url
             /\ fst (geocode isd repr key query w) = Ok (zip_result repr q data)
        else DIRECT_ENDPOINT `prefix_of` url
             /\ fst (geocode isd repr key query w) = direct_result repr q data).
Proof.
  intros Hk Hq q rest. split; [apply str_isdigit_spec |]. split.
  - intros Hr. unfold is_zip. fold q. fold rest. rewrite Hr. reflexivity.
  - intros url data Hu Hb.
    rewrite (geocode_run key query w url Hk Hq Hu), Hb. fold q. simpl fst.
    destruct (is_zip isd q) eqn:Hz.
    + destruct (build_url_zip _ _ _ Hz Hu) as (qs & _ & ->).
      split; [by eexists | reflexivity].
    + destruct (build_url_direct _ _ _ Hz Hu) as (qs & _ & ->).
      split; [by eexists | reflexivity].
Qed.

(** C2.  On the ZIP path the "zip" parameter of the one request made is
    the trimmed input itself when it holds a comma, and the trimmed
    input followed by ",US" when it holds none. *)
Theorem C2_zip_parameter key query w :
  key_missing key = false -> strip query <> [] ->
  is_zip isd (strip query) = true ->
  let q := strip query in
  exists param,
    (COMMA ∈ q -> param = q)
    /\ (COMMA ∉ q -> param = q ++ lit ",US")
    /\ forall qs,
         urlencode [(lit "zip", param); (lit "appid", default [] key)] = Ok qs ->
         requests (snd (geocode isd repr key query w))
         = requests w ++ [ZIP_ENDPOINT ++ qs].
Proof.
  intros Hk Hq Hz q. exists (zip_param q). unfold zip_param.
  split; [| split].
  - intros Hin. apply contains_char_spec in Hin. rewrite Hin. reflexivity.
  - intros Hin. apply contains_char_false in Hin. rewrite Hin. reflexivity.
  - intros qs Hu.
    assert (build_url isd (default [] key) q = Ok (ZIP_ENDPOINT ++ qs)) as Hb.
    { unfold build_url. fold q in Hz. rewrite Hz. unfold zip_param.
      rewrite Hu. reflexivity. }
    rewrite (geocode_run key query w _ Hk Hq Hb). reflexivity.
Qed.

(** C5, as amended.  Without a credential [geocode] answers with the
    configuration message whatever the input; with a credential and an
    input that trims to nothing it answers with the input message; in
    both cases the world is left as it was, so no request is made. *)
Theorem C5_guards key query w :
  (key_missing key = true ->
     geocode isd repr key query w = (Ok (None, Some MSG_MISSING_KEY), w)
     /\ requests (snd (geocode isd repr key query w)) = requests w)
  /\ (key_missing key = false -> strip query = [] ->
     geocode isd repr key query w = (Ok (None, Some MSG_ENTER), w)
     /\ requests (snd (geocode isd repr key query w)) = requests w).
Proof.
  split.
  - intros H. rewrite (geocode_no_key key query w H). split; reflexivity.
  - intros H1 H2. rewrite (geocode_blank key query w H1 H2). split; reflexivity.
Qed.

End ResolverProperties.

Section ResolverAnswers.

Variable isd : N -> bool.
Variable repr : value -> str.

(** The name shown: the upstream's when it is there and not empty,
    else the fallback. *)
Lemma py_or_absent (d : gmap str value) k fallback :
  d !! k = None -> py_or (dict_get d k) fallback = fallback.
Proof. intros H. unfold dict_get. rewrite H. reflexivity. Qed.

Lemma dict_has_true (d : gmap str value) k :
  dict_has d k = true <-> is_Some (d !! k).
Proof. unfold dict_has. apply bool_decide_eq_true. Qed.

(** The ZIP branch succeeds exactly on an object with both coordinates. *)
Lemma zip_result_some q data :
  (exists r, zip_result repr q data = (Some r, None))
  <-> exists d, data = VDict d
                /\ is_Some (d !! lit "lat") /\ is_Some (d !! lit "lon").
Proof.
  split.
  - intros [r H]. destruct data; try discriminate H.
    simpl in H. exists d. split; [reflexivity |].
    rewrite <- !dict_has_true.
    destruct (dict_has d (lit "lat")), (dict_has d (lit "lon"));
      simpl in H; try discriminate H; auto.
  - intros (d & -> & H1 & H2). apply dict_has_true in H1, H2.
    simpl. rewrite H1, H2. simpl. eauto.
Qed.

Lemma zip_result_none q data :
  (forall d, data = VDict d ->
             ~ (is_Some (d !! lit "lat") /\ is_Some (d !! lit "lon"))) ->
  zip_result repr q data = (None, Some MSG_NO_RESULT).
Proof.
  intros H. destruct data; try reflexivity. simpl.
  destruct (dict_has d (lit "lat")) eqn:E1; [| reflexivity].
  destruct (dict_has d (lit "lon")) eqn:E2; [| reflexivity].
  exfalso. apply (H d eq_refl). rewrite <- !dict_has_true. auto.
Qed.

Lemma zip_result_dict q d r :
  zip_result repr q (VDict d) = (Some r, None) ->
  r = mkLocation
        (let name := py_or (dict_get d (lit "name")) (VStr (lit "ZIP " ++ q)) in
         if truthy (dict_get d (lit "country"))
         then VStr (fstr repr name ++ lit ", " ++ fstr repr (dict_get d (lit "country")))
         else name)
        (dict_get d (lit "lat")) (dict_get d (lit "lon")) q.
Proof.
  simpl. destruct (negb (dict_has d (lit "lat")) || negb (dict_has d (lit "lon")));
    [discriminate |].
  intros [= <-]. reflexivity.
Qed.

(** [geocode] never answers with both a result and a message, nor with
    neither, on the ZIP branch. *)
Lemma zip_result_exactly_one q data :
  match zip_result repr q data with
  | (Some r, None) => raw_query r = q
  | (None, Some _) => True
  | _ => False
  end.
Proof.
  destruct data; simpl; try exact I.
  destruct (negb _ || negb _); simpl; [exact I | reflexivity].
Qed.

(** The search branch on a list that starts with an object. *)
Lemma direct_result_dict q d rest :
  direct_result repr q (VList (VDict d :: rest)) =
  Ok (Some (mkLocation
        (let name := py_or (dict_get d (lit "name")) (VStr q) in
         let with_country :=
           if truthy (dict_get d (lit "country"))
           then VStr (fstr repr name ++ lit ", " ++ fstr repr (dict_get d (lit "country")))
           else name in
         if truthy (dict_get d (lit "state"))
         then VStr (fstr repr with_country ++ lit " (" ++
                    fstr repr (dict_get d (lit "state")) ++ lit ")")
         else with_country)
        (dict_get d (lit "lat")) (dict_get d (lit "lon")) q), None).
Proof. reflexivity. Qed.

(** The search branch on a list that starts with anything else. *)
Lemma direct_result_non_object q first rest :
  (forall d, first <> VDict d) ->
  direct_result repr q (VList (first :: rest)) = Raise AttributeError.
Proof. intros H. destruct first; try reflexivity. destruct (H d eq_refl). Qed.

Lemma direct_result_no_list q data :
  (forall first rest, data <> VList (first :: rest)) ->
  direct_result repr q data = Ok (None, Some MSG_NO_RESULT).
Proof.
  intros H. destruct data; try reflexivity.
  destruct l as [|first rest]; [reflexivity |]. destruct (H first rest eq_refl).
Qed.

Lemma direct_result_exactly_one q data :
  match direct_result repr q data with
  | Ok (Some r, None) => raw_query r = q
  | Ok (None, Some _) => True
  | Ok _ => False
  | Raise e => e = AttributeError
  end.
Proof.
  destruct data; simpl; try exact I.
  destruct l as [|first rest]; simpl; [exact I |].
  destruct first; simpl; reflexivity.
Qed.

(** What holds of every call of [geocode] that returns: exactly one of
    the two components is set, and a result carries the trimmed input. *)
Lemma geocode_returned_pair key query w info err :
  fst (geocode isd repr key query w) = Ok (info, err) ->
  (info = None /\ is_Some err)
  \/ (exists r, info = Some r /\ err = None /\ raw_query r = strip query).
Proof.
  destruct (key_missing key) eqn:Hk.
  { rewrite geocode_no_key by exact Hk. intros [= <- <-]. left. eauto. }
  destruct (decide (strip query = [])) as [Hq|Hq].
  { rewrite geocode_blank by assumption. intros [= <- <-]. left. eauto. }
  destruct (build_url isd (default [] key) (strip query)) as [url|e] eqn:Hu.
  - rewrite (geocode_run isd repr key query w url Hk Hq Hu).
    simpl fst. destruct (upstream w url) as [data|msg].
    + destruct (is_zip isd (strip query)).
      * pose proof (zip_result_exactly_one (strip query) data) as H.
        intros [= E]. rewrite E in H.
        destruct info as [r|], err as [m|]; try contradiction;
          [right; exists r; auto | left; eauto].
      * pose proof (direct_result_exactly_one (strip query) data) as H.
        intros E. rewrite E in H.
        destruct info as [r|], err as [m|]; try contradiction;
          [right; exists r; auto | left; eauto].
    + intros [= <- <-]. left. eauto.
  - rewrite (geocode_url_raise isd repr key query w e Hk Hq Hu).
    discriminate.
Qed.

Lemma build_url_ok_text key q url :
  build_url isd key q = Ok url -> is_text q = true.
Proof.
  unfold build_url. destruct (is_zip isd q).
  - destruct (urlencode _) eqn:E; [| discriminate]. intros _.
    apply urlencode_ok in E. unfold zip_param in E.
    destruct (contains_char COMMA q); [exact E |].
    rewrite is_text_app in E. apply andb_true_iff in E as [E _]. exact E.
  - destruct (urlencode _) eqn:E; [| discriminate]. intros _.
    exact (urlencode_ok _ _ _ _ E).
Qed.

(** A resolved query is the trimmed input, is not empty, and is text:
    it went through [urlencode] before the request was made. *)
Lemma geocode_resolved_text key query w r :
  fst (geocode isd repr key query w) = Ok (Some r, None) ->
  raw_query r = strip query /\ raw_query r <> [] /\ is_text (raw_query r) = true.
Proof.
  intros H.
  destruct (geocode_returned_pair key query w _ _ H)
    as [[Hn _] | (r' & [= <-] & _ & Hq)]; [discriminate |].
  split; [exact Hq |]. rewrite Hq. revert H.
  destruct (key_missing key) eqn:Hk.
  { rewrite geocode_no_key by exact Hk. discriminate. }
  destruct (decide (strip query = [])) as [He|He].
  { rewrite geocode_blank by assumption. discriminate. }
  destruct (build_url isd (default [] key) (strip query)) as [url|e] eqn:Hu.
  - intros _. split; [exact He | exact (build_url_ok_text _ _ _ Hu)].
  - rewrite (geocode_url_raise isd repr key query w e Hk He Hu). discriminate.
Qed.

(** C3, as amended.  On the ZIP path the attempt succeeds exactly when
    the response is an object holding both coordinates and answers "No
    result" otherwise.  On success the name is the upstream's when it is
    there and not empty, else "ZIP " followed by the trimmed input; the
    label is "name, country" when the country is there and not empty,
    else the name alone. *)
Theorem C3_zip_answer key query w url data :
  key_missing key = false -> strip query <> [] ->
  is_zip isd (strip query) = true ->
  build_url isd (default [] key) (strip query) = Ok url ->
  upstream w url = Body data ->
  let q := strip query in
  let out := fst (geocode isd repr key query w) in
  ((exists r, out = Ok (Some r, None))
   <-> exists d, data = VDict d
                 /\ is_Some (d !! lit "lat") /\ is_Some (d !! lit "lon"))
  /\ ((forall d, data = VDict d ->
                 ~ (is_Some (d !! lit "lat") /\ is_Some (d !! lit "lon"))) ->
      out = Ok (None, Some MSG_NO_RESULT))
  /\ (forall d r, data = VDict d -> out = Ok (Some r, None) ->
      let name :=
        if truthy (dict_get d (lit "name")) then dict_get d (lit "name")
        else VStr (lit "ZIP " ++ q) in
      let country := dict_get d (lit "country") in
      (d !! lit "name" = None -> name = VStr (lit "ZIP " ++ q))
      /\ (truthy country = true ->
          label r = VStr (fstr repr name ++ lit ", " ++ fstr repr country))
      /\ (truthy country = false -> label r = name)
      /\ (d !! lit "country" = None -> label r = name)
      /\ lat r = dict_get d (lit "lat") /\ lon r = dict_get d (lit "lon")
      /\ raw_query r = q).
Proof.
  intros Hk Hq Hz Hu Hb q out.
  assert (out = Ok (zip_result repr q data)) as Hout.
  { unfold out. rewrite (geocode_run isd repr key query w url Hk Hq Hu), Hb, Hz.
    reflexivity. }
  rewrite Hout. split; [| split].
  - rewrite <- (zip_result_some q data).
    split; intros [r H]; exists r; congruence.
  - intros H. rewrite zip_result_none by exact H. reflexivity.
  - intros d r -> [= H]. apply zip_result_dict in H. subst r. cbn [label lat lon raw_query].
    fold (py_or (dict_get d (lit "name")) (VStr (lit "ZIP " ++ q))).
    repeat split.
    + intros Hn. apply py_or_absent. exact Hn.
    + intros ->. reflexivity.
    + intros ->. reflexivity.
    + intros Hn. unfold dict_get at 1. rewrite Hn. reflexivity.
Qed.

(** C4, as amended.  On the search path the attempt succeeds only on a
    non-empty list and answers "No result" on anything else.  When the
    first element is an object it is the one used: the name is the
    upstream's when it is there and not empty, else the trimmed input;
    the label is the name, followed by ", country" when the country is
    there and not empty, followed by " (state)" when the state is there
    and not empty. *)
Theorem C4_search_answer key query w url data :
  key_missing key = false -> strip query <> [] ->
  is_zip isd (strip query) = false ->
  build_url isd (default [] key) (strip query) = Ok url ->
  upstream w url = Body data ->
  let q := strip query in
  let out := fst (geocode isd repr key query w) in
  ((exists r, out = Ok (Some r, None)) ->
     exists first rest, data = VList (first :: rest))
  /\ ((forall first rest, data <> VList (first :: rest)) ->
      out = Ok (None, Some MSG_NO_RESULT))
  /\ (forall d rest, data = VList (VDict d :: rest) ->
      let name :=
        if truthy (dict_get d (lit "name")) then dict_get d (lit "name")
        else VStr q in
      let country := dict_get d (lit "country") in
      let state := dict_get d (lit "state") in
      exists r, out = Ok (Some r, None)
      /\ (d !! lit "name" = None -> name = VStr q)
      /\ (truthy country = true -> truthy state = true ->
          label r = VStr (fstr repr name ++ lit ", " ++ fstr repr country
                          ++ lit " (" ++ fstr repr state ++ lit ")"))
      /\ (truthy country = true -> truthy state = false ->
          label r = VStr (fstr repr name ++ lit ", " ++ fstr repr country))
      /\ (truthy country = false -> truthy state = true ->
          label r = VStr (fstr repr name ++ lit " (" ++ fstr repr state ++ lit ")"))
      /\ (truthy country = false -> truthy state = false -> label r = name)
      /\ lat r = dict_get d (lit "lat") /\ lon r = dict_get d (lit "lon")
      /\ raw_query r = q).
Proof.
  intros Hk Hq Hz Hu Hb q out.
  assert (out = direct_result repr q data) as Hout.
  { unfold out. rewrite (geocode_run isd repr key query w url Hk Hq Hu), Hb, Hz.
    reflexivity. }
  rewrite Hout. split; [| split].
  - intros [r H]. destruct data; try discriminate H.
    destruct l as [|first rest]; [discriminate H | eauto].
  - apply direct_result_no_list.
  - intros d rest -> name country state. rewrite direct_result_dict.
    eexists. split; [reflexivity |]. cbn [label lat lon raw_query].
    fold (py_or (dict_get d (lit "name")) (VStr q)).
    fold country. fold state.
    repeat split.
    + intros Hn. apply py_or_absent. exact Hn.
    + intros -> ->. cbn [fstr]. rewrite <- !app_assoc. reflexivity.
    + intros -> ->. reflexivity.
    + intros -> ->. reflexivity.
    + intros -> ->. reflexivity.
Qed.

End ResolverAnswers.

(** ** The override store *)

Lemma chain_length base todo p :
  p ∈ chain base todo ->
  (length base < length p <= length base + length todo)%nat.
Proof.
  revert base. induction todo as [|c rest IH]; intros base H; simpl in H.
  - inversion H.
  - apply elem_of_cons in H as [-> | H].
    + rewrite length_app. simpl. lia.
    + apply IH in H. rewrite length_app in H. simpl in *. lia.
Qed.

Lemma chain_not_base base todo : base ∉ chain base todo.
Proof. intros H. apply chain_length in H. lia. Qed.

Lemma chain_last base todo :
  todo <> [] -> base ++ todo ∈ chain base todo.
Proof.
  revert base. induction todo as [|c rest IH]; intros base H; [congruence |].
  simpl. destruct rest as [|c' rest'].
  - apply elem_of_cons. left. reflexivity.
  - apply elem_of_cons. right.
    replace (base ++ c :: c' :: rest') with ((base ++ [c]) ++ c' :: rest')
      by (rewrite <- app_assoc; reflexivity).
    apply IH. discriminate.
Qed.

Lemma is_file_insert_ne (t : gmap path node) p p' n :
  p <> p' -> is_file (<[p := n]> t) p' = is_file t p'.
Proof. intros H. unfold is_file. rewrite lookup_insert_ne by exact H. reflexivity. Qed.

(** With no regular file in the way [makedirs] succeeds; afterwards the
    whole chain is directories and nothing else has changed. *)
Lemma mkdir_chain_ok todo : forall base (t : gmap path node),
  forallb (fun p => negb (is_file t p)) (chain base todo) = true ->
  exists t',
    mkdir_chain base todo t = (Ok tt, t')
    /\ (forall p, p ∈ chain base todo -> t' !! p = Some Dir)
    /\ (forall p, p ∉ chain base todo -> t' !! p = t !! p).
Proof.
  induction todo as [|c rest IH]; intros base t H.
  - exists t. split; [reflexivity |]. split; [| reflexivity].
    intros p Hp. inversion Hp.
  - simpl in H. apply andb_true_iff in H as [H0 H].
    set (p0 := base ++ [c]) in *. simpl. fold p0.
    unfold is_file in H0.
    destruct (t !! p0) as [[|content]|] eqn:E; [| discriminate |].
    + destruct (IH p0 t H) as (t' & Hrun & Hdir & Hsame).
      exists t'. split; [exact Hrun |]. split.
      * intros p Hp. apply elem_of_cons in Hp as [-> | Hp]; [| auto].
        rewrite Hsame by apply chain_not_base. exact E.
      * intros p Hp. apply Hsame. intros Hin. apply Hp.
        apply elem_of_cons. right. exact Hin.
    + assert (forallb (fun p => negb (is_file (<[p0 := Dir]> t) p)) (chain p0 rest)
              = true) as H'.
      { apply forallb_forall. intros p Hp.
        rewrite forallb_forall in H. rewrite is_file_insert_ne; [apply H, Hp |].
        intros ->. apply list_elem_of_In in Hp. exact (chain_not_base _ _ Hp). }
      destruct (IH p0 _ H') as (t' & Hrun & Hdir & Hsame).
      exists t'. split; [exact Hrun |]. split.
      * intros p Hp. apply elem_of_cons in Hp as [-> | Hp]; [| auto].
        rewrite Hsame by apply chain_not_base. apply lookup_insert_eq.
      * intros p Hp. rewrite Hsame.
        -- apply lookup_insert_ne. intros <-. apply Hp.
           apply elem_of_cons. left. reflexivity.
        -- intros Hin. apply Hp. apply elem_of_cons. right. exact Hin.
Qed.

(** Creation is idempotent: on a chain of directories [makedirs] changes
    nothing. *)
Lemma mkdir_chain_idem todo : forall base (t : gmap path node),
  (forall p, p ∈ chain base todo -> t !! p = Some Dir) ->
  mkdir_chain base todo t = (Ok tt, t).
Proof.
  induction todo as [|c rest IH]; intros base t H; [reflexivity |].
  simpl. rewrite (H (base ++ [c])) by (apply elem_of_cons; left; reflexivity).
  apply IH. intros p Hp. apply H. apply elem_of_cons. right. exact Hp.
Qed.

(** [makedirs] returns only when no regular file is in the way. *)
Lemma mkdir_chain_ok_inv todo : forall base (t t' : gmap path node),
  mkdir_chain base todo t = (Ok tt, t') ->
  forallb (fun p => negb (is_file t p)) (chain base todo) = true.
Proof.
  induction todo as [|c rest IH]; intros base t t' H; [reflexivity |].
  simpl in H. simpl. set (p0 := base ++ [c]) in *. unfold is_file at 1.
  destruct (t !! p0) as [[|content]|] eqn:E; [| discriminate H |].
  - exact (IH _ _ _ H).
  - apply IH in H. cbn [negb andb]. apply forallb_forall. intros p Hp.
    rewrite forallb_forall in H. rewrite <- (is_file_insert_ne t p0 p Dir).
    + apply H, Hp.
    + intros <-. apply list_elem_of_In in Hp. exact (chain_not_base _ _ Hp).
Qed.

Lemma set_fs_same w : set_fs (fs w) w = w.
Proof. destruct w. reflexivity. Qed.

Section StoreProperties.

Variable home : path.

Lemma override_parent : removelast (OVERRIDE_FILE home) = CACHE_DIR home.
Proof. unfold OVERRIDE_FILE. apply removelast_last. Qed.

Lemma cache_dir_in_chain : CACHE_DIR home ∈ chain [] (CACHE_DIR home).
Proof.
  apply (chain_last [] (CACHE_DIR home)). unfold CACHE_DIR.
  destruct home; discriminate.
Qed.

Lemma override_not_in_chain : OVERRIDE_FILE home ∉ chain [] (CACHE_DIR home).
Proof.
  intros H. apply chain_length in H. unfold OVERRIDE_FILE in H.
  rewrite length_app in H. simpl in H. lia.
Qed.

Lemma override_not_root : OVERRIDE_FILE home <> [].
Proof. unfold OVERRIDE_FILE. intros H. apply app_eq_nil in H as [_ H]. discriminate. Qed.

Lemma is_dir_override (t : gmap path node) :
  is_dir t (OVERRIDE_FILE home)
  = match t !! OVERRIDE_FILE home with Some Dir => true | _ => false end.
Proof.
  pose proof override_not_root as H. unfold is_dir.
  destruct (OVERRIDE_FILE home); [congruence | reflexivity].
Qed.

Lemma is_dir_cache (t : gmap path node) :
  t !! CACHE_DIR home = Some Dir -> is_dir t (CACHE_DIR home) = true.
Proof. intros H. unfold is_dir. rewrite H. destruct (CACHE_DIR home); reflexivity. Qed.

(** A save that the file system lets through: the file holds the bytes
    of the trimmed text, the cache directory exists, the next save is
    let through as well, and nothing but the file system has changed. *)
Lemma save_override_ok q w bs :
  can_save home (fs w) = true ->
  utf8_encode (strip q) = Some bs ->
  exists w',
    save_override home q w = (Ok tt, w')
    /\ fs w' !! OVERRIDE_FILE home = Some (File bs)
    /\ fs w' !! CACHE_DIR home = Some Dir
    /\ can_save home (fs w') = true
    /\ makedirs (CACHE_DIR home) w' = (Ok tt, w')
    /\ requests w' = requests w /\ spawned w' = spawned w
    /\ pkill w' = pkill w.
Proof.
  intros Hc He. unfold can_save in Hc. apply andb_true_iff in Hc as [Hchain Hfile].
  destruct (mkdir_chain_ok _ _ _ Hchain) as (t1 & Hrun & Hdir & Hsame).
  pose proof (Hdir _ cache_dir_in_chain) as Hcache.
  pose proof (Hsame _ override_not_in_chain) as Hover.
  set (t2 := <[OVERRIDE_FILE home := File bs]> (<[OVERRIDE_FILE home := File []]> t1)).
  assert (forall p, p ∈ chain [] (CACHE_DIR home) -> t2 !! p = Some Dir) as Hdir2.
  { intros p Hp. unfold t2.
    assert (OVERRIDE_FILE home <> p) as Hne
      by (intros <-; exact (override_not_in_chain Hp)).
    rewrite !lookup_insert_ne by exact Hne. apply Hdir, Hp. }
  exists (set_fs t2 w). split; [| split; [| split; [| split; [| split]]]].
  - unfold save_override, bind, makedirs. rewrite Hrun.
    unfold open_w. cbn [fs set_fs]. rewrite is_dir_override, Hover.
    rewrite is_dir_override in Hfile.
    destruct (fs w !! OVERRIDE_FILE home) as [[|c0]|] eqn:E; try discriminate Hfile;
      rewrite override_parent, Hcache, (is_dir_cache _ Hcache);
      unfold file_write; rewrite He; cbn [fs set_fs];
      rewrite lookup_insert_eq; reflexivity.
  - cbn [fs set_fs]. apply lookup_insert_eq.
  - cbn [fs set_fs]. apply Hdir2, cache_dir_in_chain.
  - cbn [fs set_fs]. unfold can_save. apply andb_true_iff. split.
    + apply forallb_forall. intros p Hp. apply list_elem_of_In in Hp.
      unfold is_file. rewrite (Hdir2 p Hp). reflexivity.
    + rewrite is_dir_override. unfold t2. rewrite lookup_insert_eq. reflexivity.
  - unfold makedirs. cbn [fs set_fs].
    rewrite (mkdir_chain_idem _ _ _ Hdir2). reflexivity.
  - destruct w; auto.
Qed.

(** A save returns only on such a file system and for such a text. *)
Lemma save_override_inv q w w' :
  save_override home q w = (Ok tt, w') ->
  can_save home (fs w) = true /\ is_text (strip q) = true.
Proof.
  unfold save_override, bind, makedirs.
  destruct (mkdir_chain [] (CACHE_DIR home) (fs w)) as [[[]|e] t1] eqn:Hrun;
    [| discriminate].
  pose proof (mkdir_chain_ok_inv _ _ _ _ Hrun) as Hchain.
  destruct (mkdir_chain_ok _ _ _ Hchain) as (t1' & Hrun' & _ & Hsame).
  rewrite Hrun in Hrun'. injection Hrun' as <-.
  unfold open_w. cbn [fs set_fs].
  destruct (is_dir t1 (OVERRIDE_FILE home)) eqn:Hd; [discriminate |].
  destruct (t1 !! removelast (OVERRIDE_FILE home)) as [[|c0]|];
    try discriminate;
    (destruct (is_dir t1 (removelast (OVERRIDE_FILE home))); [| discriminate]);
    unfold file_write;
    (destruct (utf8_encode (strip q)) as [bs|] eqn:He; [| discriminate]);
    intros _;
    (split; [| apply utf8_encode_some; rewrite He; eexists; reflexivity]);
    unfold can_save; rewrite Hchain; cbn [andb];
    rewrite is_dir_override, <- (Hsame _ override_not_in_chain),
      <- is_dir_override, Hd; reflexivity.
Qed.

(** What a save that returned has done. *)
Lemma save_override_returned q w w' :
  save_override home q w = (Ok tt, w') ->
  is_text (strip q) = true
  /\ can_save home (fs w') = true
  /\ fs w' !! CACHE_DIR home = Some Dir
  /\ makedirs (CACHE_DIR home) w' = (Ok tt, w')
  /\ (exists bs, utf8_encode (strip q) = Some bs
                 /\ fs w' !! OVERRIDE_FILE home = Some (File bs))
  /\ read_text (fs w') (OVERRIDE_FILE home) = Some (strip q).
Proof.
  intros Hrun.
  destruct (save_override_inv q w w' Hrun) as [Hc Ht].
  split; [exact Ht |].
  apply utf8_encode_some in Ht as [bs He].
  destruct (save_override_ok q w bs Hc He)
    as (w1 & Hrun1 & Hfile & Hdir & Hc' & Hidem & _).
  rewrite Hrun in Hrun1. injection Hrun1 as <-.
  split; [exact Hc' |]. split; [exact Hdir |]. split; [exact Hidem |].
  split; [exists bs; split; assumption |].
  unfold read_text. rewrite Hfile. apply utf8_roundtrip, He.
Qed.

(** C9, as amended.  For every string, whenever [save_override] returns,
    the trimmed text is text the UTF-8 codec accepts, the cache directory
    exists and creating it again changes nothing, the override file holds
    exactly the UTF-8 bytes of the trimmed text, and reading it back gives
    the trimmed text, which trimming leaves as it is.  Whenever a second
    save returns as well, the file holds the second text and nothing of
    the first. *)
Theorem C9_save_roundtrip q w w' :
  save_override home q w = (Ok tt, w') ->
  is_text (strip q) = true
  /\ fs w' !! CACHE_DIR home = Some Dir
  /\ makedirs (CACHE_DIR home) w' = (Ok tt, w')
  /\ (exists bs, utf8_encode (strip q) = Some bs
                 /\ fs w' !! OVERRIDE_FILE home = Some (File bs))
  /\ read_text (fs w') (OVERRIDE_FILE home) = Some (strip q)
  /\ strip (strip q) = strip q
  /\ forall q2 w'',
       save_override home q2 w' = (Ok tt, w'') ->
       (exists bs2, utf8_encode (strip q2) = Some bs2
                    /\ fs w'' !! OVERRIDE_FILE home = Some (File bs2))
       /\ read_text (fs w'') (OVERRIDE_FILE home) = Some (strip q2).
Proof.
  intros Hrun.
  destruct (save_override_returned q w w' Hrun)
    as (Ht & _ & Hdir & Hidem & Hfile & Hread).
  split; [exact Ht |]. split; [exact Hdir |]. split; [exact Hidem |].
  split; [exact Hfile |]. split; [exact Hread |].
  split; [apply strip_idempotent |].
  intros q2 w'' Hrun2.
  destruct (save_override_returned q2 w' w'' Hrun2)
    as (_ & _ & _ & _ & Hfile2 & Hread2).
  split; assumption.
Qed.

End StoreProperties.

(** ** The notifier and the handlers *)

Lemma makedirs_pkill p o w :
  makedirs p (set_pkill o w)
  = (fst (makedirs p w), set_pkill o (snd (makedirs p w))).
Proof.
  unfold makedirs. cbn [fs set_pkill].
  destruct (mkdir_chain [] p (fs w)). reflexivity.
Qed.

Lemma open_w_pkill p o w :
  open_w p (set_pkill o w)
  = (fst (open_w p w), set_pkill o (snd (open_w p w))).
Proof.
  unfold open_w. cbn [fs set_pkill].
  destruct (is_dir (fs w) p); [reflexivity |].
  destruct (fs w !! removelast p) as [[|c]|];
    try reflexivity; destruct (is_dir (fs w) (removelast p)); reflexivity.
Qed.

Lemma file_write_pkill p s o w :
  file_write p s (set_pkill o w)
  = (fst (file_write p s w), set_pkill o (snd (file_write p s w))).
Proof.
  unfold file_write. cbn [fs set_pkill].
  destruct (utf8_encode s); reflexivity.
Qed.

(** The store neither reads nor writes the process table. *)
Lemma save_override_pkill home q o w :
  save_override home q (set_pkill o w)
  = (fst (save_override home q w), set_pkill o (snd (save_override home q w))).
Proof.
  unfold save_override, bind. rewrite makedirs_pkill.
  destruct (makedirs (CACHE_DIR home) w) as [[[]|e] w1]; [| reflexivity].
  cbn [fst snd]. rewrite open_w_pkill.
  destruct (open_w (OVERRIDE_FILE home) w1) as [[[]|e] w2]; [| reflexivity].
  cbn [fst snd]. apply file_write_pkill.
Qed.

(** Whatever the signalling attempt comes to, [reload_waybar] returns,
    and all it leaves behind is the process it started, if it could. *)
Lemma reload_waybar_returns w :
  reload_waybar w
  = (Ok tt, mkWorld (fs w) (upstream w) (pkill w) (requests w)
                    (after_notify w)).
Proof.
  unfold reload_waybar, try_except, bind, subprocess_run, ret, after_notify.
  destruct w as [t u o rq sp]. cbn [pkill fs upstream requests spawned].
  destruct o; reflexivity.
Qed.

(** [do_save] when the slot is filled: the store, then the notifier,
    then the window is closed; an error of the store goes through. *)
Lemma do_save_filled home ui w raw :
  current_raw ui = Some raw -> raw <> [] ->
  do_save home (ui, w) =
    match save_override home raw w with
    | (Ok _, w1) =>
        (Ok tt, (destroy ui,
                 mkWorld (fs w1) (upstream w1) (pkill w1) (requests w1)
                         (after_notify w1)))
    | (Raise e, w1) => (Raise e, (ui, w1))
    end.
Proof.
  intros Hraw Hne. unfold do_save, bind, get_ui. cbn [fst snd]. rewrite Hraw.
  destruct raw as [|c r]; [congruence |].
  cbn [str_truthy negb default from_option id].
  unfold on_world at 1. cbn [fst snd].
  destruct (save_override home (c :: r) w) as [[[]|e] w1]; [| reflexivity].
  unfold on_world. cbn [fst snd]. rewrite reload_waybar_returns. reflexivity.
Qed.

Lemma do_save_empty home ui w :
  match current_raw ui with Some r => str_truthy r | None => false end = false ->
  do_save home (ui, w) = (Ok tt, (set_status MSG_NOTHING ui, w)).
Proof.
  intros H. unfold do_save, bind, get_ui. cbn [fst snd]. rewrite H. reflexivity.
Qed.

(** C8.  Whatever the signalling attempt comes to (an exit status of the
    child or an exception of the call), [reload_waybar] returns normally
    and leaves the files alone; the result of [do_save], the dialog it
    leaves and the files it leaves are the same under any two outcomes;
    and once the store has returned, [do_save] returns and closes the
    window. *)
Theorem C8_notifier_swallows home ui w o :
  (exists w', reload_waybar (set_pkill o w) = (Ok tt, w') /\ fs w' = fs w)
  /\ (forall o',
        let a := do_save home (ui, set_pkill o w) in
        let b := do_save home (ui, set_pkill o' w) in
        fst a = fst b /\ fst (snd a) = fst (snd b)
        /\ fs (snd (snd a)) = fs (snd (snd b)))
  /\ (forall raw w1,
        current_raw ui = Some raw -> raw <> [] ->
        save_override home raw w = (Ok tt, w1) ->
        exists w2,
          do_save home (ui, set_pkill o w) = (Ok tt, (destroy ui, w2))
          /\ fs w2 = fs w1).
Proof.
  split; [| split].
  - rewrite reload_waybar_returns. eexists. split; reflexivity.
  - intros o'. cbv zeta.
    destruct (current_raw ui) as [[|c r]|] eqn:Hraw.
    + rewrite !do_save_empty by (rewrite Hraw; reflexivity). auto.
    + rewrite !(do_save_filled home ui _ (c :: r) Hraw) by discriminate.
      rewrite !save_override_pkill.
      destruct (save_override home (c :: r) w) as [[[]|e] w1]; cbn [fst snd]; auto.
    + rewrite !do_save_empty by (rewrite Hraw; reflexivity). auto.
  - intros raw w1 Hraw Hne Hsave.
    rewrite (do_save_filled home ui _ raw Hraw Hne), save_override_pkill, Hsave.
    cbn [fst snd]. eexists. split; reflexivity.
Qed.

Section HandlerProperties.

Variable isd : N -> bool.
Variable repr : value -> str.
Variable key : option str.
Variable home : path.

(** A message of the resolver becomes the status line. *)
Lemma do_check_message ui w msg w1 :
  geocode isd repr key (strip (entry ui)) w = (Ok (None, Some msg), w1) ->
  msg <> [] ->
  do_check isd repr key (ui, w) = (Ok tt, (set_status msg (cleared ui), w1)).
Proof.
  intros Hg Hm. unfold do_check, bind, get_ui, on_ui, on_world. cbn [fst snd].
  rewrite Hg. destruct msg as [|c r]; [congruence | reflexivity].
Qed.

(** A result of the resolver is shown, kept, and opens Save. *)
Lemma do_check_result ui w r w1 :
  geocode isd repr key (strip (entry ui)) w = (Ok (Some r, None), w1) ->
  do_check isd repr key (ui, w)
  = (Ok tt,
     (set_save true
        (set_current_raw (Some (raw_query r))
           (set_status MSG_OK
              (set_result (ARROW ++ fstr repr (label r)) (cleared ui)))),
      w1)).
Proof.
  intros Hg. unfold do_check, bind, get_ui, on_ui, on_world. cbn [fst snd].
  rewrite Hg. reflexivity.
Qed.

(** An exception of the resolver goes through [do_check]. *)
Lemma do_check_raise ui w e w1 :
  geocode isd repr key (strip (entry ui)) w = (Raise e, w1) ->
  do_check isd repr key (ui, w) = (Raise e, (cleared ui, w1)).
Proof.
  intros Hg. unfold do_check, bind, get_ui, on_ui, on_world. cbn [fst snd].
  rewrite Hg. reflexivity.
Qed.

(** Check, then Save: what is read back from the override file is the
    resolved query, byte for byte, and that is the trimmed entry. *)
Lemma check_then_save ui w r w1 :
  geocode isd repr key (strip (entry ui)) w = (Ok (Some r, None), w1) ->
  can_save home (fs w1) = true ->
  exists ui' w2,
    do_check isd repr key (ui, w) = (Ok tt, (ui', w1))
    /\ save_enabled ui' = true
    /\ do_save home (ui', w1) = (Ok tt, (destroy ui', w2))
    /\ read_text (fs w2) (OVERRIDE_FILE home) = Some (raw_query r)
    /\ raw_query r = strip (entry ui).
Proof.
  intros Hg Hc.
  destruct (geocode_resolved_text isd repr key (strip (entry ui)) w r)
    as (Hq & Hne & Ht); [rewrite Hg; reflexivity |].
  rewrite strip_idempotent in Hq.
  assert (strip (raw_query r) = raw_query r) as Hfix
    by (rewrite Hq; apply strip_idempotent).
  pose proof Ht as Ht'. rewrite <- Hfix in Ht'.
  apply utf8_encode_some in Ht' as [bs He].
  destruct (save_override_ok home (raw_query r) w1 bs Hc He)
    as (w2 & Hrun & Hfile & _).
  set (ui' := set_save true
                (set_current_raw (Some (raw_query r))
                   (set_status MSG_OK
                      (set_result (ARROW ++ fstr repr (label r)) (cleared ui))))).
  exists ui'. eexists. split; [exact (do_check_result ui w r w1 Hg) |].
  split; [reflexivity |].
  rewrite (do_save_filled home ui' w1 (raw_query r) eq_refl Hne), Hrun.
  split; [reflexivity |]. split; [| exact Hq].
  cbn [fs]. unfold read_text. rewrite Hfile. rewrite Hfix in He.
  apply utf8_roundtrip, He.
Qed.

End HandlerProperties.

(** ** Closed instances *)

(** C6, at the failing input.  A search answer whose first match has no
    coordinates is returned as a success, with [None] for both. *)
Theorem C6_search_null_coordinates :
  fst (geocode ascii_isdigit opaque_repr KEY (lit "Paris")
         (world_answering (VList [VDict no_coordinates])))
  = Ok (Some (mkLocation (VStr (lit "Paris")) VNone VNone (lit "Paris")), None).
Proof. vm_compute. reflexivity. Qed.

(** C7, at the failing input.  With a regular file where the cache
    directory should be, [do_save] raises the error of the store: the
    status line is not touched, the notifier is not run and the window
    stays open. *)
Theorem C7_save_error_escapes :
  fst (do_save home_example (dialog_checked, world_blocked))
  = Raise FileExistsError
  /\ fst (snd (do_save home_example (dialog_checked, world_blocked)))
     = dialog_checked
  /\ spawned (snd (snd (do_save home_example (dialog_checked, world_blocked))))
     = [].
Proof. vm_compute. repeat split. Qed.

(** C10, at the failing input.  A search answer whose first element is
    not an object makes [geocode] raise: it returns neither a result nor
    a message. *)
Theorem C10_search_non_object_raises :
  fst (geocode ascii_isdigit opaque_repr KEY (lit "Paris")
         (world_answering (VList [VInt 1])))
  = Raise AttributeError.
Proof. vm_compute. reflexivity. Qed.

(** The examples of the specification. *)
Example geocode_beverly_hills :
  geocode ascii_isdigit opaque_repr KEY (lit "90210")
          (world_answering (VDict beverly_hills))
  = (Ok (Some (mkLocation (VStr (lit "Beverly Hills, US"))
                 (VFloat (S754_finite false 4799148352916685 (-47)))
                 (VFloat (S754_finite true 8331659310635418 (-46)))
                 (lit "90210")), None),
     mkWorld ∅ (fun _ => Body (VDict beverly_hills)) (Completed 0)
       [lit "https://api.openweathermap.org/geo/1.0/zip?zip=90210%2CUS&appid=KEY"]
       []).
Proof. vm_compute. reflexivity. Qed.

Example geocode_paris :
  fst (geocode ascii_isdigit opaque_repr KEY (lit "Paris,FR")
         (world_answering (VList [VDict paris])))
  = Ok (Some (mkLocation (VStr (lit "Paris, FR"))
                (VFloat (S754_finite false 6875026306157773 (-47)))
                (VFloat (S754_finite false 5291729562160333 (-51)))
                (lit "Paris,FR")), None).
Proof. vm_compute. reflexivity. Qed.

Example geocode_transport_error :
  fst (geocode ascii_isdigit opaque_repr KEY (lit "Paris")
         (world_failing (lit "timed out")))
  = Ok (None, Some (lit "Request error: timed out")).
Proof. vm_compute. reflexivity. Qed.

Example do_check_beverly_hills :
  fst (snd (do_check ascii_isdigit opaque_repr KEY
              (mkDialog (lit " 90210 ") INITIAL_STATUS [] false None false,
               world_answering (VDict beverly_hills))))
  = mkDialog (lit " 90210 ") MSG_OK (ARROW ++ lit "Beverly Hills, US") true
             (Some (lit "90210")) false.
Proof. vm_compute. reflexivity. Qed.

Example do_check_no_key :
  fst (snd (do_check ascii_isdigit opaque_repr None
              (mkDialog (lit "90210") INITIAL_STATUS [] false None false,
               world_answering (VDict beverly_hills))))
  = mkDialog (lit "90210") MSG_MISSING_KEY [] false None false.
Proof. vm_compute. reflexivity. Qed.

Example do_save_nothing :
  fst (snd (do_save home_example (initial_dialog, world_answering VNone)))
  = set_status MSG_NOTHING initial_dialog.
Proof. vm_compute. reflexivity. Qed.

(** C1, the counterexample.  "," is trimmed and not empty; with commas
    and spaces removed nothing remains, so every remaining character is a
    digit; yet it is not classified as a ZIP code and goes to the search
    endpoint. *)
Lemma C1_counterexample_comma :
  strip [COMMA] = [COMMA] /\ [COMMA] <> []
  /\ ~ (is_zip ascii_isdigit [COMMA] = true
        <-> forallb ascii_isdigit (remove_char SPACE (remove_char COMMA [COMMA]))
            = true)
  /\ requests (snd (geocode ascii_isdigit opaque_repr KEY [COMMA]
                      (world_answering VNone)))
     = [lit "https://api.openweathermap.org/geo/1.0/direct?q=%2C&limit=1&appid=KEY"].
Proof.
  split; [reflexivity |]. split; [discriminate |]. split.
  - intros [_ H]. specialize (H eq_refl). vm_compute in H. discriminate H.
  - vm_compute. reflexivity.
Qed.

Lemma C1_classification_witness :
  is_zip ascii_isdigit (strip (lit " 90210 ")) = true
  /\ is_zip ascii_isdigit (strip (lit " , ")) = false
  /\ fst (geocode ascii_isdigit opaque_repr KEY (lit " 90210 ")
            (world_answering (VDict beverly_hills)))
     = Ok (zip_result opaque_repr (lit "90210") (VDict beverly_hills))
  /\ fst (geocode ascii_isdigit opaque_repr KEY (lit " , ")
            (world_answering (VList [VDict paris])))
     = direct_result opaque_repr (lit ",") (VList [VDict paris]).
Proof.
  destruct (C1_classification ascii_isdigit opaque_repr KEY (lit " 90210 ")
              (world_answering (VDict beverly_hills))
              eq_refl ltac:(vm_compute; discriminate))
    as (Hiff & _ & Hpath).
  destruct (C1_classification ascii_isdigit opaque_repr KEY (lit " , ")
              (world_answering (VList [VDict paris]))
              eq_refl ltac:(vm_compute; discriminate))
    as (_ & Hempty & Hpath').
  split; [| split; [| split]].
  - apply Hiff. split; [vm_compute; discriminate | vm_compute; reflexivity].
  - apply Hempty. vm_compute. reflexivity.
  - exact (proj2 (Hpath
        (lit "https://api.openweathermap.org/geo/1.0/zip?zip=90210%2CUS&appid=KEY")
        (VDict beverly_hills)
        ltac:(vm_compute; reflexivity) eq_refl)).
  - exact (proj2 (Hpath'
        (lit "https://api.openweathermap.org/geo/1.0/direct?q=%2C&limit=1&appid=KEY")
        (VList [VDict paris])
        ltac:(vm_compute; reflexivity) eq_refl)).
Defined.

Lemma C2_zip_parameter_witness :
  requests (snd (geocode ascii_isdigit opaque_repr KEY (lit "90210")
                   (world_answering VNone)))
  = [lit "https://api.openweathermap.org/geo/1.0/zip?zip=90210%2CUS&appid=KEY"]
  /\ requests (snd (geocode ascii_isdigit opaque_repr KEY (lit "10115, 49")
                      (world_answering VNone)))
     = [lit "https://api.openweathermap.org/geo/1.0/zip?zip=10115%2C+49&appid=KEY"].
Proof.
  split.
  - destruct (C2_zip_parameter ascii_isdigit opaque_repr KEY (lit "90210")
                (world_answering VNone) eq_refl ltac:(vm_compute; discriminate)
                eq_refl)
      as (param & _ & Hplain & Hreq).
    assert (param = lit "90210,US") as ->.
    { rewrite Hplain; [vm_compute; reflexivity |].
      apply contains_char_false. vm_compute. reflexivity. }
    rewrite (Hreq (lit "zip=90210%2CUS&appid=KEY") ltac:(vm_compute; reflexivity)).
    vm_compute. reflexivity.
  - destruct (C2_zip_parameter ascii_isdigit opaque_repr KEY (lit "10115, 49")
                (world_answering VNone) eq_refl ltac:(vm_compute; discriminate)
                eq_refl)
      as (param & Hcomma & _ & Hreq).
    assert (param = lit "10115, 49") as ->.
    { rewrite Hcomma; [vm_compute; reflexivity |].
      apply contains_char_spec. vm_compute. reflexivity. }
    rewrite (Hreq (lit "zip=10115%2C+49&appid=KEY") ltac:(vm_compute; reflexivity)).
    vm_compute. reflexivity.
Defined.

(** C3, the counterexample.  The country is there, and empty: the label
    is the name alone, not the name followed by ", " and the country. *)
Lemma C3_counterexample_empty_country :
  is_Some (empty_country !! lit "country")
  /\ exists r,
       fst (geocode ascii_isdigit opaque_repr KEY (lit "90210")
              (world_answering (VDict empty_country)))
       = Ok (Some r, None)
       /\ label r = VStr (lit "X")
       /\ label r <> VStr (lit "X" ++ lit ", " ++ []).
Proof.
  split; [eexists; vm_compute; reflexivity |].
  eexists. split; [vm_compute; reflexivity |].
  split; [reflexivity | vm_compute; discriminate].
Qed.

Lemma C3_zip_answer_witness :
  (exists r,
     fst (geocode ascii_isdigit opaque_repr KEY (lit "90210")
            (world_answering (VDict beverly_hills)))
     = Ok (Some r, None)
     /\ label r = VStr (lit "Beverly Hills, US")
     /\ raw_query r = lit "90210")
  /\ fst (geocode ascii_isdigit opaque_repr KEY (lit "90210")
            (world_answering (VList [VDict beverly_hills])))
     = Ok (None, Some MSG_NO_RESULT).
Proof.
  split.
  - destruct (C3_zip_answer ascii_isdigit opaque_repr KEY (lit "90210")
                (world_answering (VDict beverly_hills))
                (lit "https://api.openweathermap.org/geo/1.0/zip?zip=90210%2CUS&appid=KEY")
                (VDict beverly_hills)
                eq_refl ltac:(vm_compute; discriminate)
                ltac:(vm_compute; reflexivity) ltac:(vm_compute; reflexivity)
                eq_refl)
      as (Hiff & _ & Hlabel).
    destruct (proj2 Hiff) as [r Hr].
    { exists beverly_hills.
      split; [reflexivity | split; eexists; vm_compute; reflexivity]. }
    exists r. split; [exact Hr |].
    destruct (Hlabel beverly_hills r eq_refl Hr) as (_ & Hc & _ & _ & _ & _ & Hq).
    split; [| rewrite Hq; vm_compute; reflexivity].
    rewrite Hc by (vm_compute; reflexivity). vm_compute. reflexivity.
  - destruct (C3_zip_answer ascii_isdigit opaque_repr KEY (lit "90210")
                (world_answering (VList [VDict beverly_hills]))
                (lit "https://api.openweathermap.org/geo/1.0/zip?zip=90210%2CUS&appid=KEY")
                (VList [VDict beverly_hills])
                eq_refl ltac:(vm_compute; discriminate)
                ltac:(vm_compute; reflexivity) ltac:(vm_compute; reflexivity)
                eq_refl)
      as (_ & Hnone & _).
    apply Hnone. intros d Hd. discriminate Hd.
Defined.

(** C4, the counterexample.  The country of the first match is there,
    and empty: the label is the name alone. *)
Lemma C4_counterexample_empty_country :
  is_Some (empty_country !! lit "country")
  /\ exists r,
       fst (geocode ascii_isdigit opaque_repr KEY (lit "Xanadu")
              (world_answering (VList [VDict empty_country])))
       = Ok (Some r, None)
       /\ label r = VStr (lit "X")
       /\ label r <> VStr (lit "X" ++ lit ", " ++ []).
Proof.
  split; [eexists; vm_compute; reflexivity |].
  eexists. split; [vm_compute; reflexivity |].
  split; [reflexivity | vm_compute; discriminate].
Qed.

Lemma C4_search_answer_witness :
  (exists r,
     fst (geocode ascii_isdigit opaque_repr KEY (lit "Paris,FR")
            (world_answering (VList [VDict paris])))
     = Ok (Some r, None)
     /\ label r = VStr (lit "Paris, FR")
     /\ raw_query r = lit "Paris,FR")
  /\ fst (geocode ascii_isdigit opaque_repr KEY (lit "Paris,FR")
            (world_answering (VList [])))
     = Ok (None, Some MSG_NO_RESULT).
Proof.
  split.
  - destruct (C4_search_answer ascii_isdigit opaque_repr KEY (lit "Paris,FR")
                (world_answering (VList [VDict paris]))
                (lit "https://api.openweathermap.org/geo/1.0/direct?q=Paris%2CFR&limit=1&appid=KEY")
                (VList [VDict paris])
                eq_refl ltac:(vm_compute; discriminate)
                ltac:(vm_compute; reflexivity) ltac:(vm_compute; reflexivity)
                eq_refl)
      as (_ & _ & Hlabel).
    destruct (Hlabel paris [] eq_refl)
      as (r & Hr & _ & _ & Hc & _ & _ & _ & _ & Hq).
    exists r. split; [exact Hr |].
    split; [| rewrite Hq; vm_compute; reflexivity].
    rewrite Hc by (vm_compute; reflexivity). vm_compute. reflexivity.
  - destruct (C4_search_answer ascii_isdigit opaque_repr KEY (lit "Paris,FR")
                (world_answering (VList []))
                (lit "https://api.openweathermap.org/geo/1.0/direct?q=Paris%2CFR&limit=1&appid=KEY")
                (VList [])
                eq_refl ltac:(vm_compute; discriminate)
                ltac:(vm_compute; reflexivity) ltac:(vm_compute; reflexivity)
                eq_refl)
      as (_ & Hnone & _).
    apply Hnone. intros first rest Hd. discriminate Hd.
Defined.

(** C5, the counterexample.  Without a credential the empty input is
    answered with the configuration message, not with the input
    message. *)
Lemma C5_counterexample_no_key_blank :
  key_missing None = true /\ strip (lit "") = []
  /\ fst (geocode ascii_isdigit opaque_repr None (lit "") (world_answering VNone))
     = Ok (None, Some MSG_MISSING_KEY)
  /\ fst (geocode ascii_isdigit opaque_repr None (lit "") (world_answering VNone))
     <> Ok (None, Some MSG_ENTER).
Proof.
  split; [reflexivity |]. split; [reflexivity |]. split; [reflexivity |].
  vm_compute. discriminate.
Qed.

Lemma C5_guards_witness :
  geocode ascii_isdigit opaque_repr None (lit "90210") (world_answering VNone)
  = (Ok (None, Some MSG_MISSING_KEY), world_answering VNone)
  /\ geocode ascii_isdigit opaque_repr (Some []) (lit "90210") (world_answering VNone)
     = (Ok (None, Some MSG_MISSING_KEY), world_answering VNone)
  /\ geocode ascii_isdigit opaque_repr KEY (lit "   ") (world_answering VNone)
     = (Ok (None, Some MSG_ENTER), world_answering VNone).
Proof.
  split; [| split].
  - apply (C5_guards ascii_isdigit opaque_repr None (lit "90210")
             (world_answering VNone)). reflexivity.
  - apply (C5_guards ascii_isdigit opaque_repr (Some []) (lit "90210")
             (world_answering VNone)). reflexivity.
  - apply (C5_guards ascii_isdigit opaque_repr KEY (lit "   ")
             (world_answering VNone)); reflexivity.
Defined.

Lemma C8_notifier_swallows_witness :
  exists w2,
    do_save home_example
      (dialog_checked, set_pkill (RunRaised FileNotFoundError) (world_answering VNone))
    = (Ok tt, (destroy dialog_checked, w2))
    /\ read_text (fs w2) (OVERRIDE_FILE home_example) = Some (lit "90210").
Proof.
  destruct (C8_notifier_swallows home_example dialog_checked
              (world_answering VNone) (RunRaised FileNotFoundError))
    as (_ & _ & Hsave).
  destruct (Hsave (lit "90210")
              (snd (save_override home_example (lit "90210") (world_answering VNone)))
              eq_refl ltac:(vm_compute; discriminate)
              ltac:(vm_compute; reflexivity))
    as (w2 & Hrun & Hfs).
  exists w2. split; [exact Hrun |].
  rewrite Hfs. vm_compute. reflexivity.
Defined.

(** C9, the counterexample.  A string whose only character is a lone
    surrogate is a string, and trimming leaves it as it is; on an empty
    file system, which lets every save through, [save_override] does not
    write it: it raises UnicodeEncodeError, and the override file, opened
    before the text is encoded, reads back as the empty string. *)
Lemma C9_counterexample_lone_surrogate :
  strip [55296] = [55296]
  /\ fst (save_override home_example [55296] (world_answering VNone))
     = Raise UnicodeEncodeError
  /\ read_text (fs (snd (save_override home_example [55296]
                           (world_answering VNone))))
               (OVERRIDE_FILE home_example)
     = Some []
  /\ read_text (fs (snd (save_override home_example [55296]
                           (world_answering VNone))))
               (OVERRIDE_FILE home_example)
     <> Some (strip [55296]).
Proof.
  split; [reflexivity |]. split; [vm_compute; reflexivity |].
  split; [vm_compute; reflexivity |]. vm_compute. discriminate.
Qed.

Lemma C9_save_roundtrip_witness :
  read_text (fs (snd (save_override home_example (lit " 90210 ")
                        (world_answering VNone))))
            (OVERRIDE_FILE home_example)
  = Some (lit "90210")
  /\ read_text
       (fs (snd (save_override home_example (lit "Paris,FR")
                   (snd (save_override home_example (lit " 90210 ")
                           (world_answering VNone))))))
       (OVERRIDE_FILE home_example)
     = Some (lit "Paris,FR").
Proof.
  destruct (C9_save_roundtrip home_example (lit " 90210 ") (world_answering VNone)
              (snd (save_override home_example (lit " 90210 ")
                      (world_answering VNone)))
              ltac:(vm_compute; reflexivity))
    as (_ & _ & _ & _ & Hread & _ & Hnext).
  split; [exact Hread |].
  destruct (Hnext (lit "Paris,FR")
              (snd (save_override home_example (lit "Paris,FR")
                      (snd (save_override home_example (lit " 90210 ")
                              (world_answering VNone)))))
              ltac:(vm_compute; reflexivity))
    as (_ & Hread2).
  exact Hread2.
Defined.

(** ** More on the resolver *)

Lemma elem_of_remove_char c (s : str) x :
  x ∈ remove_char c s <-> x ∈ s /\ x <> c.
Proof.
  induction s as [|y r IH]; simpl.
  - split; [intros H; inversion H | intros [H _]; inversion H].
  - destruct (N.eqb_spec y c) as [-> | Hne].
    + rewrite IH, elem_of_cons. split; [tauto |].
      intros [[-> | H] Hx]; [congruence | tauto].
    + rewrite !elem_of_cons, IH. split.
      * intros [-> | [H Hx]]; [split; [left; reflexivity | exact Hne] | tauto].
      * intros [[-> | H] Hx]; [left; reflexivity | right; tauto].
Qed.

Lemma contains_char_app c (a b : str) :
  contains_char c (a ++ b) = contains_char c a || contains_char c b.
Proof.
  induction a as [|x r IH]; simpl; [reflexivity |].
  rewrite IH. apply orb_assoc.
Qed.

Lemma lstrip_all_space (s : str) :
  lstrip s = [] <-> forallb isspace_char s = true.
Proof.
  induction s as [|c r IH]; simpl; [tauto |].
  destruct (isspace_char c); simpl; [exact IH |].
  split; discriminate.
Qed.

(** Trimming leaves nothing exactly of a string of white space. *)
Lemma strip_nil (s : str) : strip s = [] <-> forallb isspace_char s = true.
Proof.
  rewrite <- lstrip_all_space. unfold strip. split.
  - intros H. pose proof (lstrip_head s) as Hh.
    destruct (lstrip s) as [|c r]; [reflexivity |].
    rewrite rstrip_cons in H by exact Hh. discriminate H.
  - intros ->. reflexivity.
Qed.

Lemma quote_plus_raise (s : str) e :
  quote_plus s = Raise e -> e = UnicodeEncodeError /\ is_text s = false.
Proof.
  unfold quote_plus. destruct (utf8_encode s) as [bs|] eqn:E; [discriminate |].
  intros [= <-]. split; [reflexivity |].
  destruct (is_text s) eqn:Ht; [| reflexivity].
  apply utf8_encode_some in Ht as [bs Hbs]. congruence.
Qed.

Lemma utf8_encode_cp_bytes c bs :
  utf8_encode_cp c = Some bs -> Forall (fun b => b < 256) bs.
Proof.
  unfold utf8_encode_cp. destruct (is_surrogate c); cmp_cases;
    intros [= <-]; repeat constructor; lia.
Qed.

(** What the codec writes are bytes. *)
Lemma utf8_encode_bytes (s : str) bs :
  utf8_encode s = Some bs -> Forall (fun b => b < 256) bs.
Proof.
  revert bs. induction s as [|c r IH]; simpl; intros bs H.
  - injection H as <-. constructor.
  - destruct (utf8_encode_cp c) as [b|] eqn:Ec; [| discriminate].
    destruct (utf8_encode r) as [br|]; [| discriminate].
    injection H as <-. apply Forall_app. split.
    + exact (utf8_encode_cp_bytes _ _ Ec).
    + apply IH. reflexivity.
Qed.

Lemma quote_byte_safe b : b < 256 -> forallb url_safe (quote_byte b) = true.
Proof.
  intros Hb. unfold quote_byte, url_safe. destruct (always_safe b) eqn:E.
  - simpl. rewrite E. reflexivity.
  - destruct (b =? SPACE); [reflexivity |].
    assert (forall n, n < 16 -> always_safe (hex_digit n) = true) as Hhex.
    { intros n Hn. unfold hex_digit, always_safe. cmp_cases; reflexivity. }
    cbn [forallb]. rewrite !Hhex by lia. reflexivity.
Qed.

(** A quoted string holds nothing that could end a parameter or start
    another one. *)
Lemma quote_plus_safe (s : str) x :
  quote_plus s = Ok x -> forallb url_safe x = true.
Proof.
  unfold quote_plus. destruct (utf8_encode s) as [bs|] eqn:E; [| discriminate].
  intros [= <-]. apply utf8_encode_bytes in E.
  induction E as [|b r Hb _ IH]; [reflexivity |].
  simpl. rewrite forallb_app, (quote_byte_safe b Hb), IH. reflexivity.
Qed.

Lemma url_safe_plain c :
  url_safe c = true -> c ∉ lit "&=?#/ ".
Proof.
  intros H Hin. unfold url_safe, always_safe in H.
  repeat (apply elem_of_cons in Hin as [-> | Hin]; [discriminate H |]).
  inversion Hin.
Qed.

Lemma quote_plus_lit_zip : quote_plus (lit "zip") = Ok (lit "zip").
Proof. reflexivity. Qed.
Lemma quote_plus_lit_appid : quote_plus (lit "appid") = Ok (lit "appid").
Proof. reflexivity. Qed.
Lemma quote_plus_lit_q : quote_plus (lit "q") = Ok (lit "q").
Proof. reflexivity. Qed.
Lemma quote_plus_lit_limit : quote_plus (lit "limit") = Ok (lit "limit").
Proof. reflexivity. Qed.
Lemma quote_plus_lit_1 : quote_plus (lit "1") = Ok (lit "1").
Proof. reflexivity. Qed.

Section ResolverExtras.

Variable isd : N -> bool.
Variable repr : value -> str.

(** The query string of the ZIP endpoint, in terms of [quote_plus]. *)
Lemma build_url_zip_cases key q :
  is_zip isd q = true ->
  build_url isd key q =
    match quote_plus (zip_param q), quote_plus key with
    | Ok a, Ok b => Ok (ZIP_ENDPOINT ++ lit "zip=" ++ a ++ lit "&appid=" ++ b)
    | Raise e, _ => Raise e
    | Ok _, Raise e => Raise e
    end.
Proof.
  intros Hz. unfold build_url. rewrite Hz. cbn [urlencode res_bind].
  rewrite quote_plus_lit_zip, quote_plus_lit_appid. cbn [res_bind].
  destruct (quote_plus (zip_param q)) as [a|e]; [| reflexivity]. cbn [res_bind].
  destruct (quote_plus key) as [b|e]; [| reflexivity]. cbn [res_bind].
  rewrite <- ?app_assoc. reflexivity.
Qed.

(** The query string of the search endpoint, in terms of [quote_plus]. *)
Lemma build_url_direct_cases key q :
  is_zip isd q = false ->
  build_url isd key q =
    match quote_plus q, quote_plus key with
    | Ok a, Ok b =>
        Ok (DIRECT_ENDPOINT ++ lit "q=" ++ a ++ lit "&limit=1&appid=" ++ b)
    | Raise e, _ => Raise e
    | Ok _, Raise e => Raise e
    end.
Proof.
  intros Hz. unfold build_url. rewrite Hz. cbn [urlencode res_bind].
  rewrite quote_plus_lit_q, quote_plus_lit_limit, quote_plus_lit_1,
    quote_plus_lit_appid. cbn [res_bind].
  destruct (quote_plus q) as [a|e]; [| reflexivity]. cbn [res_bind].
  destruct (quote_plus key) as [b|e]; [| reflexivity]. cbn [res_bind].
  rewrite <- ?app_assoc. reflexivity.
Qed.

Lemma is_text_zip_param q : is_text (zip_param q) = is_text q.
Proof.
  unfold zip_param. destruct (contains_char COMMA q); [reflexivity |].
  rewrite is_text_app. change (is_text (lit ",US")) with true.
  apply andb_true_r.
Qed.

(** The URL can be built exactly from text. *)
Lemma build_url_raise key q e :
  build_url isd key q = Raise e ->
  e = UnicodeEncodeError /\ (is_text q = false \/ is_text key = false).
Proof.
  destruct (is_zip isd q) eqn:Hz.
  - rewrite (build_url_zip_cases key q Hz).
    destruct (quote_plus (zip_param q)) as [a|e1] eqn:E1.
    + destruct (quote_plus key) as [b|e2] eqn:E2; [discriminate |].
      intros [= <-]. apply quote_plus_raise in E2 as [-> E2]. auto.
    + intros [= <-]. apply quote_plus_raise in E1 as [-> E1].
      rewrite is_text_zip_param in E1. auto.
  - rewrite (build_url_direct_cases key q Hz).
    destruct (quote_plus q) as [a|e1] eqn:E1.
    + destruct (quote_plus key) as [b|e2] eqn:E2; [discriminate |].
      intros [= <-]. apply quote_plus_raise in E2 as [-> E2]. auto.
    + intros [= <-]. apply quote_plus_raise in E1 as [-> E1]. auto.
Qed.

(** The messages [geocode] can return, each with its cause. *)
Lemma geocode_message key query w m :
  fst (geocode isd repr key query w) = Ok (None, Some m) ->
  (m = MSG_MISSING_KEY /\ key_missing key = true)
  \/ (m = MSG_ENTER /\ key_missing key = false /\ strip query = [])
  \/ (key_missing key = false /\ strip query <> []
      /\ (m = MSG_NO_RESULT \/ exists x, m = MSG_REQUEST_ERROR ++ x)).
Proof.
  destruct (key_missing key) eqn:Hk.
  { rewrite geocode_no_key by exact Hk. intros [= <-]. auto. }
  destruct (decide (strip query = [])) as [Hq|Hq].
  { rewrite geocode_blank by assumption. intros [= <-]. auto. }
  right. right. split; [reflexivity |]. split; [exact Hq |]. revert H.
  destruct (build_url isd (default [] key) (strip query)) as [url|e] eqn:Hu.
  - rewrite (geocode_run isd repr key query w url Hk Hq Hu). simpl fst.
    destruct (upstream w url) as [data|msg].
    + destruct (is_zip isd (strip query)).
      * intros [= H]. left. destruct data; simpl in H; try congruence.
        destruct (negb _ || negb _); congruence.
      * intros H. left. destruct data; simpl in H; try congruence.
        destruct l as [|first rest]; simpl in H; [congruence |].
        destruct first; simpl in H; congruence.
    + intros [= <-]. eauto.
  - rewrite (geocode_url_raise isd repr key query w e Hk Hq Hu). discriminate.
Qed.

(** X1.  An input is classified as a ZIP code exactly when it is made of
    digits, commas and spaces only and holds at least one character that
    is neither a comma nor a space. *)
Theorem X1_is_zip_characters q :
  is_zip isd q = true <->
  (forall c, c ∈ q -> c = COMMA \/ c = SPACE \/ isd c = true)
  /\ (exists c, c ∈ q /\ c <> COMMA /\ c <> SPACE).
Proof.
  unfold is_zip. rewrite str_isdigit_spec.
  set (rest := remove_char SPACE (remove_char COMMA q)).
  assert (forall c, c ∈ rest <-> c ∈ q /\ c <> COMMA /\ c <> SPACE) as Hrest.
  { intros c. unfold rest. rewrite !elem_of_remove_char. tauto. }
  split.
  - intros [Hne Hall]. split.
    + intros c Hc.
      destruct (decide (c = COMMA)) as [|H1]; [auto |].
      destruct (decide (c = SPACE)) as [|H2]; [auto |].
      right. right. rewrite forallb_forall in Hall. apply Hall.
      apply list_elem_of_In, Hrest. auto.
    + destruct rest as [|c r] eqn:E; [congruence |].
      exists c. apply Hrest. apply elem_of_cons. left. reflexivity.
  - intros [Hall [c Hc]]. split.
    + intros E. apply Hrest in Hc. rewrite E in Hc. inversion Hc.
    + apply forallb_forall. intros x Hx.
      apply list_elem_of_In, Hrest in Hx as (Hq & H1 & H2).
      destruct (Hall x Hq) as [? | [? | ?]]; [contradiction | contradiction | assumption].
Qed.

(** X2.  The parameter of the ZIP endpoint always holds a comma, starts
    with the trimmed input, and is left as it is when it goes through
    [zip_param] again. *)
Theorem X2_zip_param_shape q :
  COMMA ∈ zip_param q
  /\ q `prefix_of` zip_param q
  /\ zip_param (zip_param q) = zip_param q.
Proof.
  assert (contains_char COMMA (zip_param q) = true) as Hc.
  { unfold zip_param. destruct (contains_char COMMA q) eqn:E; [exact E |].
    rewrite contains_char_app, E. reflexivity. }
  split; [apply contains_char_spec, Hc |]. split.
  - unfold zip_param. destruct (contains_char COMMA q).
    + exists []. rewrite app_nil_r. reflexivity.
    + eexists. reflexivity.
  - unfold zip_param at 1. rewrite Hc. reflexivity.
Qed.

(** X3.  A URL that [geocode] builds is the endpoint followed by the
    parameters in their fixed order, and the two values it carries, the
    input and the credential, are quoted: neither holds "&", "=", "?",
    "#", "/" or a space, so no input can add or alter a parameter. *)
Theorem X3_url_shape key q url :
  build_url isd key q = Ok url ->
  exists a b,
    quote_plus (if is_zip isd q then zip_param q else q) = Ok a
    /\ quote_plus key = Ok b
    /\ url = (if is_zip isd q
              then ZIP_ENDPOINT ++ lit "zip=" ++ a ++ lit "&appid=" ++ b
              else DIRECT_ENDPOINT ++ lit "q=" ++ a ++ lit "&limit=1&appid=" ++ b)
    /\ forall c, c ∈ a ++ b -> c ∉ lit "&=?#/ ".
Proof.
  assert (forall a b, (exists s, quote_plus s = Ok a) -> (exists s, quote_plus s = Ok b) ->
                      forall c, c ∈ a ++ b -> c ∉ lit "&=?#/ ") as Hsafe.
  { intros a b [sa Ha] [sb Hb] c Hc. apply url_safe_plain.
    apply quote_plus_safe in Ha, Hb. rewrite forallb_forall in Ha, Hb.
    apply elem_of_app in Hc as [Hc | Hc]; [apply Ha | apply Hb];
      apply list_elem_of_In, Hc. }
  destruct (is_zip isd q) eqn:Hz.
  - rewrite (build_url_zip_cases key q Hz).
    destruct (quote_plus (zip_param q)) as [a|e1] eqn:E1; [| discriminate].
    destruct (quote_plus key) as [b|e2] eqn:E2; [| discriminate].
    intros [= <-]. exists a, b. repeat split; eauto.
  - rewrite (build_url_direct_cases key q Hz).
    destruct (quote_plus q) as [a|e1] eqn:E1; [| discriminate].
    destruct (quote_plus key) as [b|e2] eqn:E2; [| discriminate].
    intros [= <-]. exists a, b. repeat split; eauto.
Qed.

(** [geocode] and the world: nothing but the list of requests moves. *)
Lemma geocode_frame key query w :
  let w' := snd (geocode isd repr key query w) in
  fs w' = fs w /\ spawned w' = spawned w /\ pkill w' = pkill w
  /\ upstream w' = upstream w
  /\ (requests w' = requests w
      \/ exists url,
           build_url isd (default [] key) (strip query) = Ok url
           /\ requests w' = requests w ++ [url]).
Proof.
  destruct (key_missing key) eqn:Hk.
  { rewrite geocode_no_key by exact Hk. simpl. auto 6. }
  destruct (decide (strip query = [])) as [Hq|Hq].
  { rewrite geocode_blank by assumption. simpl. auto 6. }
  destruct (build_url isd (default [] key) (strip query)) as [url|e] eqn:Hu.
  - rewrite (geocode_run isd repr key query w url Hk Hq Hu). simpl.
    repeat split; try reflexivity. right. exists url. auto.
  - rewrite (geocode_url_raise isd repr key query w e Hk Hq Hu). simpl. auto 6.
Qed.

Lemma geocode_strip key query w :
  geocode isd repr key (strip query) w = geocode isd repr key query w.
Proof. unfold geocode. rewrite strip_idempotent. reflexivity. Qed.

(** X4.  Whatever it is given and however it ends, [geocode] leaves the
    files, the process table and the upstream alone, and makes at most one
    request, to the URL it built. *)
Theorem X4_geocode_effects key query w :
  let w' := snd (geocode isd repr key query w) in
  fs w' = fs w /\ spawned w' = spawned w /\ pkill w' = pkill w
  /\ upstream w' = upstream w
  /\ (requests w' = requests w
      \/ exists url,
           build_url isd (default [] key) (strip query) = Ok url
           /\ requests w' = requests w ++ [url]).
Proof. exact (geocode_frame key query w). Qed.

(** X5.  White space around the input does not count: [geocode] on the
    trimmed input is [geocode] on the input, result and effects alike. *)
Theorem X5_geocode_trims key query w :
  geocode isd repr key (strip query) w = geocode isd repr key query w.
Proof. exact (geocode_strip key query w). Qed.

(** X6.  With a credential, [geocode] answers "Enter a ZIP or city"
    exactly for an input of white space only (the empty one included),
    and then leaves the world as it was. *)
Theorem X6_blank_input key query w :
  key_missing key = false ->
  (fst (geocode isd repr key query w) = Ok (None, Some MSG_ENTER)
   <-> forallb isspace_char query = true)
  /\ (forallb isspace_char query = true ->
      snd (geocode isd repr key query w) = w).
Proof.
  intros Hk. rewrite <- strip_nil. split; [split |].
  - intros H. apply geocode_message in H as [[H _] | [(_ & _ & H) | (_ & _ & H)]].
    + discriminate H.
    + exact H.
    + destruct H as [H | [x H]]; discriminate H.
  - intros H. rewrite geocode_blank by assumption. reflexivity.
  - intros H. rewrite geocode_blank by assumption. reflexivity.
Qed.

(** X7.  When the request fails (time-out, DNS, HTTP error, a body that
    is not JSON), on either path, [geocode] returns no result and the
    message "Request error: " followed by the text of the exception; the
    one request has been made. *)
Theorem X7_transport_failure key query w url msg :
  key_missing key = false -> strip query <> [] ->
  build_url isd (default [] key) (strip query) = Ok url ->
  upstream w url = Failed msg ->
  fst (geocode isd repr key query w) = Ok (None, Some (lit "Request error: " ++ msg))
  /\ requests (snd (geocode isd repr key query w)) = requests w ++ [url].
Proof.
  intros Hk Hq Hu Hf.
  rewrite (geocode_run isd repr key query w url Hk Hq Hu), Hf. split; reflexivity.
Qed.

(** X8.  Whenever [geocode] returns, exactly one component of the pair
    is set: either no result and a message, or a result and no message;
    and the result carries the trimmed input as [raw_query]. *)
Theorem X8_returns_one_of key query w info err :
  fst (geocode isd repr key query w) = Ok (info, err) ->
  (info = None /\ exists m, err = Some m /\ m <> [])
  \/ (exists r, info = Some r /\ err = None /\ raw_query r = strip query).
Proof.
  intros H. destruct (geocode_returned_pair isd repr key query w info err H)
    as [[-> [m ->]] | Hr]; [left | right; exact Hr].
  split; [reflexivity |]. exists m. split; [reflexivity |].
  apply geocode_message in H
    as [[-> _] | [(-> & _) | (_ & _ & [-> | [x ->]])]]; discriminate.
Qed.

(** X9.  [geocode] raises in two cases only.  Either the input or the
    credential is not text the UTF-8 codec accepts: the error is
    UnicodeEncodeError and no request is made.  Or the search endpoint
    answered with a list whose first element is not an object: the error
    is AttributeError, after the request.  On the ZIP path it never
    raises once the URL is built. *)
Theorem X9_raise_cases key query w e :
  fst (geocode isd repr key query w) = Raise e ->
  (e = UnicodeEncodeError
   /\ (is_text (strip query) = false \/ is_text (default [] key) = false)
   /\ snd (geocode isd repr key query w) = w)
  \/ (e = AttributeError
      /\ is_zip isd (strip query) = false
      /\ exists url first rest,
           requests (snd (geocode isd repr key query w)) = requests w ++ [url]
           /\ upstream w url = Body (VList (first :: rest))
           /\ forall d, first <> VDict d).
Proof.
  destruct (key_missing key) eqn:Hk.
  { rewrite geocode_no_key by exact Hk. discriminate. }
  destruct (decide (strip query = [])) as [Hq|Hq].
  { rewrite geocode_blank by assumption. discriminate. }
  destruct (build_url isd (default [] key) (strip query)) as [url|e'] eqn:Hu.
  - rewrite (geocode_run isd repr key query w url Hk Hq Hu). simpl fst. simpl snd.
    destruct (upstream w url) as [data|msg] eqn:Hup; [| discriminate].
    destruct (is_zip isd (strip query)); [discriminate |].
    intros H. right.
    pose proof (direct_result_exactly_one repr (strip query) data) as Hone.
    rewrite H in Hone. subst e. split; [reflexivity |]. split; [reflexivity |].
    destruct data; try discriminate H.
    destruct l as [|first rest]; [discriminate H |].
    exists url, first, rest. split; [reflexivity |]. split; [exact Hup |].
    intros d ->. rewrite direct_result_dict in H. discriminate H.
  - rewrite (geocode_url_raise isd repr key query w e' Hk Hq Hu). simpl.
    intros [= <-]. left. apply build_url_raise in Hu as [-> Hu]. auto.
Qed.

(** X10.  From text, [geocode] always gets to the request: with a
    credential and an input that are text, and an input that does not trim
    to nothing, exactly one request is made, to a URL that starts with one
    of the two endpoints. *)
Theorem X10_text_reaches_upstream key query w :
  key_missing key = false -> strip query <> [] ->
  is_text query = true -> is_text (default [] key) = true ->
  exists url,
    requests (snd (geocode isd repr key query w)) = requests w ++ [url]
    /\ (ZIP_ENDPOINT `prefix_of` url \/ DIRECT_ENDPOINT `prefix_of` url).
Proof.
  intros Hk Hq Ht Htk. apply is_text_strip in Ht.
  destruct (build_url isd (default [] key) (strip query)) as [url|e] eqn:Hu.
  - exists url. rewrite (geocode_run isd repr key query w url Hk Hq Hu).
    split; [reflexivity |].
    destruct (is_zip isd (strip query)) eqn:Hz.
    + destruct (build_url_zip _ _ _ _ Hz Hu) as (qs & _ & ->). left. by eexists.
    + destruct (build_url_direct _ _ _ _ Hz Hu) as (qs & _ & ->). right. by eexists.
  - apply build_url_raise in Hu as [_ [Hu | Hu]]; congruence.
Qed.

(** X11.  A query that [geocode] resolved is the trimmed input, is not
    empty, is left as it is by trimming, and is text the UTF-8 codec
    accepts, so that the store can write it. *)
Theorem X11_resolved_query key query w r :
  fst (geocode isd repr key query w) = Ok (Some r, None) ->
  raw_query r = strip query /\ raw_query r <> []
  /\ strip (raw_query r) = raw_query r
  /\ exists bs, utf8_encode (raw_query r) = Some bs
                /\ utf8_decode bs = Some (raw_query r).
Proof.
  intros H.
  destruct (geocode_resolved_text isd repr key query w r H) as (Hq & Hne & Ht).
  split; [exact Hq |]. split; [exact Hne |].
  split; [rewrite Hq; apply strip_idempotent |].
  apply utf8_encode_some in Ht as [bs Hbs].
  exists bs. split; [exact Hbs | apply utf8_roundtrip, Hbs].
Qed.

End ResolverExtras.

(** ** More on the override store *)

(** [makedirs] only ever adds directories: an entry is as it was, or it
    was missing, lies on the chain and is a directory now. *)
Lemma mkdir_chain_frame (todo : list string) : forall (base : path) (t : gmap path node) (p : path),
  snd (mkdir_chain base todo t) !! p = t !! p
  \/ (t !! p = None /\ snd (mkdir_chain base todo t) !! p = Some Dir
      /\ p ∈ chain base todo).
Proof.
  induction todo as [|c rest IH]; intros base t p; [left; reflexivity |].
  simpl. set (p0 := base ++ [c]).
  destruct (t !! p0) as [[|content]|] eqn:E.
  - destruct (IH p0 t p) as [H | (H1 & H2 & H3)]; [left; exact H |].
    right. split; [exact H1 |]. split; [exact H2 |].
    apply elem_of_cons. right. exact H3.
  - left. reflexivity.
  - destruct (decide (p = p0)) as [-> | Hne].
    + right. split; [exact E |]. split; [| apply elem_of_cons; left; reflexivity].
      destruct (IH p0 (<[p0 := Dir]> t) p0) as [H | (H1 & _)].
      * rewrite H. apply lookup_insert_eq.
      * rewrite lookup_insert_eq in H1. discriminate H1.
    + destruct (IH p0 (<[p0 := Dir]> t) p) as [H | (H1 & H2 & H3)].
      * left. rewrite H. apply lookup_insert_ne. congruence.
      * right. rewrite lookup_insert_ne in H1 by congruence.
        split; [exact H1 |]. split; [exact H2 |].
        apply elem_of_cons. right. exact H3.
Qed.

(** The two ways [makedirs] fails. *)
Lemma mkdir_chain_raise (todo : list string) : forall (base : path) (t : gmap path node) e,
  fst (mkdir_chain base todo t) = Raise e ->
  e = FileExistsError \/ e = NotADirectoryError.
Proof.
  induction todo as [|c rest IH]; intros base t e; simpl; [discriminate |].
  destruct (t !! (base ++ [c])) as [[|content]|]; try apply IH.
  simpl. intros [= <-]. destruct rest; auto.
Qed.

Lemma mkdir_chain_blocked (todo : list string) (base : path) (t : gmap path node) :
  forallb (fun p => negb (is_file t p)) (chain base todo) = false ->
  exists e, fst (mkdir_chain base todo t) = Raise e
            /\ (e = FileExistsError \/ e = NotADirectoryError).
Proof.
  intros H. destruct (mkdir_chain base todo t) as [[[]|e] t'] eqn:E.
  - apply mkdir_chain_ok_inv in E. congruence.
  - exists e. split; [reflexivity |].
    apply (mkdir_chain_raise todo base t). rewrite E. reflexivity.
Qed.

Lemma open_w_frame p0 w :
  (forall p, p <> p0 -> fs (snd (open_w p0 w)) !! p = fs w !! p)
  /\ requests (snd (open_w p0 w)) = requests w
  /\ spawned (snd (open_w p0 w)) = spawned w
  /\ pkill (snd (open_w p0 w)) = pkill w
  /\ upstream (snd (open_w p0 w)) = upstream w.
Proof.
  unfold open_w. destruct (is_dir (fs w) p0); [auto |].
  destruct (fs w !! removelast p0) as [[|c]|];
    try (simpl; auto; fail);
    destruct (is_dir (fs w) (removelast p0)); simpl; repeat split; auto;
    intros p Hp; apply lookup_insert_ne; congruence.
Qed.

Lemma file_write_frame p0 s w :
  (forall p, p <> p0 -> fs (snd (file_write p0 s w)) !! p = fs w !! p)
  /\ requests (snd (file_write p0 s w)) = requests w
  /\ spawned (snd (file_write p0 s w)) = spawned w
  /\ pkill (snd (file_write p0 s w)) = pkill w
  /\ upstream (snd (file_write p0 s w)) = upstream w.
Proof.
  unfold file_write. destruct (utf8_encode s); simpl; repeat split; auto.
  intros p Hp. apply lookup_insert_ne. congruence.
Qed.

Section StoreExtras.

Variable home : path.

(** X12.  [save_override] returns only if no regular file sits at the
    cache directory or at one of its ancestors, no directory sits where
    the override file goes, and the trimmed text is text the UTF-8 codec
    accepts. *)
Theorem X12_save_returns_only_if q w w' :
  save_override home q w = (Ok tt, w') ->
  (forall p c, p ∈ chain [] (CACHE_DIR home) -> fs w !! p <> Some (File c))
  /\ fs w !! OVERRIDE_FILE home <> Some Dir
  /\ is_text (strip q) = true.
Proof.
  intros Hrun. destruct (save_override_inv home q w w' Hrun) as [Hc Ht].
  unfold can_save in Hc. apply andb_true_iff in Hc as [Hchain Hfile].
  split; [| split; [| exact Ht]].
  - intros p c Hp Hlook. rewrite forallb_forall in Hchain.
    apply list_elem_of_In in Hp. specialize (Hchain p Hp).
    unfold is_file in Hchain. rewrite Hlook in Hchain. discriminate Hchain.
  - intros Hd. rewrite is_dir_override, Hd in Hfile. discriminate Hfile.
Qed.

(** X13.  A text the codec refuses costs the previous value: the file is
    opened, and so emptied, before the text is encoded, so
    [save_override] raises UnicodeEncodeError and leaves an empty override
    file behind. *)
Theorem X13_refused_text_empties_file q w :
  can_save home (fs w) = true -> is_text (strip q) = false ->
  exists w',
    save_override home q w = (Raise UnicodeEncodeError, w')
    /\ fs w' !! OVERRIDE_FILE home = Some (File [])
    /\ read_text (fs w') (OVERRIDE_FILE home) = Some [].
Proof.
  intros Hc Ht. unfold can_save in Hc. apply andb_true_iff in Hc as [Hchain Hfile].
  destruct (mkdir_chain_ok _ _ _ Hchain) as (t1 & Hrun & Hdir & Hsame).
  pose proof (Hdir _ (cache_dir_in_chain home)) as Hcache.
  pose proof (Hsame _ (override_not_in_chain home)) as Hover.
  assert (utf8_encode (strip q) = None) as He.
  { destruct (utf8_encode (strip q)) as [bs|] eqn:E; [| reflexivity].
    assert (is_text (strip q) = true)
      by (apply utf8_encode_some; rewrite E; eexists; reflexivity).
    congruence. }
  exists (set_fs (<[OVERRIDE_FILE home := File []]> t1) w).
  assert (fs (set_fs (<[OVERRIDE_FILE home := File []]> t1) w)
            !! OVERRIDE_FILE home = Some (File [])) as Hlook
    by (cbn [fs set_fs]; apply lookup_insert_eq).
  split; [| split; [exact Hlook | unfold read_text; rewrite Hlook; reflexivity]].
  unfold save_override, bind, makedirs. rewrite Hrun.
  unfold open_w. cbn [fs set_fs]. rewrite is_dir_override, Hover.
  rewrite is_dir_override in Hfile.
  destruct (fs w !! OVERRIDE_FILE home) as [[|c0]|] eqn:E; try discriminate Hfile;
    rewrite override_parent, Hcache, (is_dir_cache _ _ Hcache);
    unfold file_write; rewrite He; reflexivity.
Qed.

(** X14.  However it ends, [save_override] touches nothing but the
    override file and the directories that lead to it: every other entry
    of the file system is as it was, or was missing and is now one of
    those directories; no request is made and no process is started. *)
Theorem X14_save_touches_only_its_file q w p :
  p <> OVERRIDE_FILE home ->
  let w' := snd (save_override home q w) in
  (fs w' !! p = fs w !! p
   \/ (fs w !! p = None /\ fs w' !! p = Some Dir
       /\ p ∈ chain [] (CACHE_DIR home)))
  /\ requests w' = requests w /\ spawned w' = spawned w
  /\ pkill w' = pkill w /\ upstream w' = upstream w.
Proof.
  intros Hp. cbv zeta. unfold save_override, bind, makedirs.
  pose proof (mkdir_chain_frame (CACHE_DIR home) [] (fs w) p) as Hframe.
  destruct (mkdir_chain [] (CACHE_DIR home) (fs w)) as [[[]|e] t1]; cbn [snd] in *.
  - set (w1 := set_fs t1 w).
    destruct (open_w_frame (OVERRIDE_FILE home) w1) as (Ho & Ho1 & Ho2 & Ho3 & Ho4).
    destruct (open_w (OVERRIDE_FILE home) w1) as [[[]|e] w2]; cbn [snd] in *.
    + destruct (file_write_frame (OVERRIDE_FILE home) (strip q) w2)
        as (Hw & Hw1 & Hw2 & Hw3 & Hw4).
      destruct (file_write (OVERRIDE_FILE home) (strip q) w2) as [r w3];
        cbn [snd] in *.
      rewrite Hw1, Hw2, Hw3, Hw4, Ho1, Ho2, Ho3, Ho4, Hw, Ho by exact Hp.
      cbn [w1 fs set_fs requests spawned pkill upstream]. auto.
    + rewrite Ho1, Ho2, Ho3, Ho4, Ho by exact Hp.
      cbn [w1 fs set_fs requests spawned pkill upstream]. auto.
  - cbn [fs set_fs requests spawned pkill upstream]. auto.
Qed.

(** X15.  With a regular file at the cache directory or at one of its
    ancestors, [save_override] raises FileExistsError or
    NotADirectoryError, and the override file and every other regular file
    are as they were. *)
Theorem X15_blocked_by_a_file q w blocker :
  blocker ∈ chain [] (CACHE_DIR home) -> is_file (fs w) blocker = true ->
  exists e w',
    save_override home q w = (Raise e, w')
    /\ (e = FileExistsError \/ e = NotADirectoryError)
    /\ forall p c, fs w !! p = Some (File c) -> fs w' !! p = Some (File c).
Proof.
  intros Hin Hfile.
  assert (forallb (fun p => negb (is_file (fs w) p)) (chain [] (CACHE_DIR home))
          = false) as Hb.
  { destruct (forallb _ _) eqn:E; [| reflexivity].
    rewrite forallb_forall in E. apply list_elem_of_In in Hin.
    specialize (E _ Hin). rewrite Hfile in E. discriminate E. }
  destruct (mkdir_chain_blocked _ _ _ Hb) as (e & He & Hshape).
  pose proof (mkdir_chain_frame (CACHE_DIR home) [] (fs w)) as Hframe.
  unfold save_override, bind, makedirs.
  destruct (mkdir_chain [] (CACHE_DIR home) (fs w)) as [r t1]; cbn [fst snd] in *.
  subst r. eexists. eexists. split; [reflexivity |]. split; [exact Hshape |].
  intros p c Hp. cbn [fs set_fs].
  destruct (Hframe p) as [H | (H & _)]; congruence.
Qed.

(** X16.  With a directory where the override file goes, and nothing in
    the way of the cache directory, [save_override] raises
    IsADirectoryError; the cache directory has been created by then. *)
Theorem X16_blocked_by_a_directory q w :
  forallb (fun p => negb (is_file (fs w) p)) (chain [] (CACHE_DIR home)) = true ->
  fs w !! OVERRIDE_FILE home = Some Dir ->
  exists w',
    save_override home q w = (Raise IsADirectoryError, w')
    /\ fs w' !! CACHE_DIR home = Some Dir
    /\ fs w' !! OVERRIDE_FILE home = Some Dir.
Proof.
  intros Hchain Hd.
  destruct (mkdir_chain_ok _ _ _ Hchain) as (t1 & Hrun & Hdir & Hsame).
  pose proof (Hdir _ (cache_dir_in_chain home)) as Hcache.
  pose proof (Hsame _ (override_not_in_chain home)) as Hover.
  exists (set_fs t1 w). split; [| split].
  - unfold save_override, bind, makedirs. rewrite Hrun.
    unfold open_w. cbn [fs set_fs]. rewrite is_dir_override, Hover, Hd.
    reflexivity.
  - exact Hcache.
  - cbn [fs set_fs]. rewrite Hover. exact Hd.
Qed.

End StoreExtras.

(** ** More on the handlers, and the event loop *)

Lemma save_override_fields home q w :
  requests (snd (save_override home q w)) = requests w
  /\ spawned (snd (save_override home q w)) = spawned w.
Proof.
  unfold save_override, bind, makedirs.
  destruct (mkdir_chain [] (CACHE_DIR home) (fs w)) as [[[]|e] t1]; [| auto].
  destruct (open_w_frame (OVERRIDE_FILE home) (set_fs t1 w)) as (_ & Ho1 & Ho2 & _).
  destruct (open_w (OVERRIDE_FILE home) (set_fs t1 w)) as [[[]|e] w2];
    cbn [snd] in *; [| rewrite Ho1, Ho2; auto].
  destruct (file_write_frame (OVERRIDE_FILE home) (strip q) w2) as (_ & Hw1 & Hw2 & _).
  destruct (file_write (OVERRIDE_FILE home) (strip q) w2) as [r w3]; cbn [snd] in *.
  rewrite Hw1, Hw2, Ho1, Ho2. auto.
Qed.

Lemma save_override_keeps_pkill home q w :
  pkill (snd (save_override home q w)) = pkill w.
Proof.
  unfold save_override, bind, makedirs.
  destruct (mkdir_chain [] (CACHE_DIR home) (fs w)) as [[[]|e] t1];
    [| reflexivity].
  destruct (open_w_frame (OVERRIDE_FILE home) (set_fs t1 w)) as (_ & _ & _ & Ho & _).
  destruct (open_w (OVERRIDE_FILE home) (set_fs t1 w)) as [[[]|e] w2];
    cbn [snd] in *; [| rewrite Ho; reflexivity].
  destruct (file_write_frame (OVERRIDE_FILE home) (strip q) w2) as (_ & _ & _ & Hw & _).
  destruct (file_write (OVERRIDE_FILE home) (strip q) w2) as [r w3]; cbn [snd] in *.
  rewrite Hw, Ho. reflexivity.
Qed.

Section HandlerExtras.

Variable isd : N -> bool.
Variable repr : value -> str.
Variable key : option str.
Variable home : path.

(** The answer of [geocode] depends on the world through the upstream
    alone. *)
Lemma geocode_upstream_only query w w' :
  upstream w = upstream w' ->
  fst (geocode isd repr key query w) = fst (geocode isd repr key query w').
Proof.
  intros Hup. destruct (key_missing key) eqn:Hk.
  { rewrite !geocode_no_key by exact Hk. reflexivity. }
  destruct (decide (strip query = [])) as [Hq|Hq].
  { rewrite !geocode_blank by assumption. reflexivity. }
  destruct (build_url isd (default [] key) (strip query)) as [url|e] eqn:Hu.
  - rewrite !(geocode_run isd repr key query _ url Hk Hq Hu), Hup. reflexivity.
  - rewrite !(geocode_url_raise isd repr key query _ e Hk Hq Hu). reflexivity.
Qed.

(** [do_check], by the three ways [geocode] can end. *)
Lemma do_check_cases ui w :
  (exists m w1,
     geocode isd repr key (strip (entry ui)) w = (Ok (None, Some m), w1)
     /\ m <> [] /\ m <> MSG_NOTHING
     /\ do_check isd repr key (ui, w) = (Ok tt, (set_status m (cleared ui), w1)))
  \/ (exists r w1,
        geocode isd repr key (strip (entry ui)) w = (Ok (Some r, None), w1)
        /\ do_check isd repr key (ui, w)
           = (Ok tt,
              (set_save true
                 (set_current_raw (Some (raw_query r))
                    (set_status MSG_OK
                       (set_result (ARROW ++ fstr repr (label r)) (cleared ui)))),
               w1)))
  \/ (exists e w1,
        geocode isd repr key (strip (entry ui)) w = (Raise e, w1)
        /\ do_check isd repr key (ui, w) = (Raise e, (cleared ui, w1))).
Proof.
  destruct (geocode isd repr key (strip (entry ui)) w) as [[[info err]|e] w1] eqn:Hg.
  - destruct (geocode_returned_pair isd repr key (strip (entry ui)) w info err)
      as [[-> [m ->]] | (r & -> & -> & _)]; [rewrite Hg; reflexivity | |].
    + left. exists m, w1. split; [reflexivity |].
      assert (m <> [] /\ m <> MSG_NOTHING) as [Hne Hnn].
      { assert (fst (geocode isd repr key (strip (entry ui)) w) = Ok (None, Some m))
          as Hm by (rewrite Hg; reflexivity).
        apply geocode_message in Hm
          as [[-> _] | [(-> & _) | (_ & _ & [-> | [x ->]])]];
          split; intros H; cbv in H; discriminate H. }
      split; [exact Hne |]. split; [exact Hnn |].
      exact (do_check_message isd repr key ui w m w1 Hg Hne).
    + right. left. exists r, w1. split; [reflexivity |].
      exact (do_check_result isd repr key ui w r w1 Hg).
  - right. right. exists e, w1. split; [reflexivity |].
    exact (do_check_raise isd repr key ui w e w1 Hg).
Qed.

(** X17.  Whatever the resolver does, [do_check] leaves the entry, the
    window and the files alone and starts no process.  Save is open
    afterwards exactly when the resolver returned a result; then the
    status is "OK", the result line is the arrow and the label, and the
    slot holds the trimmed entry.  Otherwise the result line is blank and
    the slot keeps what it held. *)
Theorem X17_do_check_outcome ui w :
  let s' := snd (do_check isd repr key (ui, w)) in
  entry (fst s') = entry ui /\ destroyed (fst s') = destroyed ui
  /\ fs (snd s') = fs w /\ spawned (snd s') = spawned w
  /\ (save_enabled (fst s') = true
      <-> exists r, fst (geocode isd repr key (entry ui) w) = Ok (Some r, None))
  /\ (save_enabled (fst s') = true ->
      status_var (fst s') = MSG_OK
      /\ current_raw (fst s') = Some (strip (entry ui))
      /\ exists r, fst (geocode isd repr key (entry ui) w) = Ok (Some r, None)
                   /\ result_var (fst s') = ARROW ++ fstr repr (label r))
  /\ (save_enabled (fst s') = false ->
      result_var (fst s') = [] /\ current_raw (fst s') = current_raw ui).
Proof.
  cbv zeta.
  pose proof (geocode_frame isd repr key (strip (entry ui)) w) as Heff.
  cbv zeta in Heff. destruct Heff as (Hfs & Hsp & _).
  rewrite <- (geocode_strip isd repr key (entry ui) w).
  destruct (do_check_cases ui w)
    as [(m & w1 & Hg & _ & _ & ->) | [(r & w1 & Hg & ->) | (e & w1 & Hg & ->)]];
    rewrite Hg in *; cbn [fst snd] in *; cbn.
  - repeat split; auto; try discriminate.
    intros [r Hr]. discriminate Hr.
  - assert (raw_query r = strip (entry ui)) as Hq.
    { destruct (geocode_resolved_text isd repr key (strip (entry ui)) w r)
        as (Hq & _); [rewrite Hg; reflexivity |].
      rewrite Hq. apply strip_idempotent. }
    repeat split; auto; try discriminate; try (rewrite Hq; reflexivity); eauto.
  - repeat split; auto; try discriminate.
    intros [r Hr]. discriminate Hr.
Qed.

(** X18.  The two guards seen from the dialog: without a credential
    Check shows "Missing OWM_API_KEY" whatever the entry holds; with one,
    and an entry of white space only, it shows "Enter a ZIP or city".  In
    both cases the result line is blank, Save is closed and the world is
    as it was: no request has been made. *)
Theorem X18_do_check_guards ui w :
  (key_missing key = true ->
     do_check isd repr key (ui, w)
     = (Ok tt, (set_status MSG_MISSING_KEY (cleared ui), w)))
  /\ (key_missing key = false -> forallb isspace_char (entry ui) = true ->
      do_check isd repr key (ui, w)
      = (Ok tt, (set_status MSG_ENTER (cleared ui), w))).
Proof.
  split.
  - intros Hk. apply do_check_message; [| discriminate].
    apply geocode_no_key, Hk.
  - intros Hk Hb. apply do_check_message; [| discriminate].
    apply geocode_blank; [exact Hk |].
    rewrite strip_idempotent. apply strip_nil, Hb.
Qed.

(** X19.  Check pressed twice in a row, the upstream answering the same,
    ends the same way and shows the same as Check pressed once. *)
Theorem X19_do_check_twice ui w :
  let once := do_check isd repr key (ui, w) in
  let twice := do_check isd repr key (snd once) in
  fst twice = fst once /\ fst (snd twice) = fst (snd once).
Proof.
  cbv zeta.
  assert (forall ui0 w0 w1,
            upstream w1 = upstream w0 -> entry ui0 = entry ui ->
            fst (geocode isd repr key (strip (entry ui0)) w1)
            = fst (geocode isd repr key (strip (entry ui)) w0)) as Hsame.
  { intros ui0 w0 w1 Hup ->. apply geocode_upstream_only, Hup. }
  pose proof (geocode_frame isd repr key (strip (entry ui)) w) as Heff.
  cbv zeta in Heff. destruct Heff as (_ & _ & _ & Hup & _).
  destruct (do_check_cases ui w)
    as [(m & w1 & Hg & Hne & _ & ->) | [(r & w1 & Hg & ->) | (e & w1 & Hg & ->)]];
    rewrite Hg in Hup; cbn [fst snd] in *.
  - set (ui1 := set_status m (cleared ui)).
    specialize (Hsame ui1 w w1 Hup eq_refl). rewrite Hg in Hsame. cbn [fst] in Hsame.
    destruct (geocode isd repr key (strip (entry ui1)) w1) as [r1 w2] eqn:Hg2.
    cbn [fst] in Hsame. subst r1.
    rewrite (do_check_message isd repr key ui1 w1 m w2 Hg2 Hne). split; reflexivity.
  - set (ui1 := set_save true _).
    specialize (Hsame ui1 w w1 Hup eq_refl). rewrite Hg in Hsame. cbn [fst] in Hsame.
    destruct (geocode isd repr key (strip (entry ui1)) w1) as [r1 w2] eqn:Hg2.
    cbn [fst] in Hsame. subst r1.
    rewrite (do_check_result isd repr key ui1 w1 r w2 Hg2). split; reflexivity.
  - set (ui1 := cleared ui).
    specialize (Hsame ui1 w w1 Hup eq_refl). rewrite Hg in Hsame. cbn [fst] in Hsame.
    destruct (geocode isd repr key (strip (entry ui1)) w1) as [r1 w2] eqn:Hg2.
    cbn [fst] in Hsame. subst r1.
    rewrite (do_check_raise isd repr key ui1 w1 e w2 Hg2). split; reflexivity.
Qed.

(** X20.  With an empty slot (nothing checked yet), [do_save] shows
    "Nothing to save" and does nothing else: no file, no process, the
    window stays open. *)
Theorem X20_do_save_empty_slot ui w :
  current_raw ui = None \/ current_raw ui = Some [] ->
  do_save home (ui, w) = (Ok tt, (set_status MSG_NOTHING ui, w)).
Proof.
  intros H. apply do_save_empty. destruct H as [-> | ->]; reflexivity.
Qed.

(** X21.  With a text in the slot, once the store has returned,
    [do_save] returns and closes the window; the files are as the store
    left them, the override file reading back as the trimmed slot; no
    request has been made.  When pkill can be run, exactly one process has
    been started, pkill -SIGUSR2 waybar, and it found the files as the
    store left them, the new query written; when pkill cannot be run, no
    process has been started. *)
Theorem X21_do_save_effects ui w raw w1 :
  current_raw ui = Some raw -> raw <> [] ->
  save_override home raw w = (Ok tt, w1) ->
  exists w',
    do_save home (ui, w) = (Ok tt, (destroy ui, w'))
    /\ fs w' = fs w1
    /\ read_text (fs w1) (OVERRIDE_FILE home) = Some (strip raw)
    /\ requests w' = requests w
    /\ match pkill w with
       | Completed _ => spawned w' = spawned w ++ [(PKILL_ARGV, fs w1)]
       | RunRaised _ => spawned w' = spawned w
       end.
Proof.
  intros Hraw Hne Hrun.
  destruct (save_override_returned home raw w w1 Hrun) as (_ & _ & _ & _ & _ & Hread).
  destruct (save_override_fields home raw w) as [Hreq Hsp].
  pose proof (save_override_keeps_pkill home raw w) as Hpk.
  rewrite Hrun in Hreq, Hsp, Hpk. cbn [snd] in Hreq, Hsp, Hpk.
  rewrite (do_save_filled home ui w raw Hraw Hne), Hrun.
  eexists. split; [reflexivity |]. cbn [fs spawned requests].
  split; [reflexivity |]. split; [exact Hread |]. split; [exact Hreq |].
  unfold after_notify. rewrite Hpk, Hsp. destruct (pkill w); reflexivity.
Qed.


(** X23.  Check, then Save: when the resolver returns a result and the
    file system lets the save through, Check opens Save, Save returns and
    closes the window, and the override file reads back as the resolved
    query, which is the trimmed entry. *)
Theorem X23_check_then_save ui w r w1 :
  geocode isd repr key (strip (entry ui)) w = (Ok (Some r, None), w1) ->
  can_save home (fs w1) = true ->
  exists ui' w2,
    do_check isd repr key (ui, w) = (Ok tt, (ui', w1))
    /\ save_enabled ui' = true
    /\ do_save home (ui', w1) = (Ok tt, (destroy ui', w2))
    /\ read_text (fs w2) (OVERRIDE_FILE home) = Some (raw_query r)
    /\ raw_query r = strip (entry ui).
Proof. exact (check_then_save isd repr key home ui w r w1). Qed.

End HandlerExtras.

Section MainLoopExtras.

Variable isd : N -> bool.
Variable repr : value -> str.
Variable key : option str.
Variable home : path.

Lemma dialog_ok_initial : dialog_ok initial_dialog.
Proof.
  split; [discriminate |]. split; [intros H; vm_compute in H; discriminate H |].
  discriminate.
Qed.

Lemma do_check_ok ui w :
  dialog_ok ui -> dialog_ok (fst (snd (do_check isd repr key (ui, w)))).
Proof.
  intros (H1 & H2 & H3).
  destruct (do_check_cases isd repr key ui w)
    as [(m & w1 & Hg & Hne & Hnn & ->) | [(r & w1 & Hg & ->) | (e & w1 & Hg & ->)]];
    cbn [fst snd].
  - split; [exact Hne |]. split; [exact Hnn |]. discriminate.
  - split; [discriminate |].
    split; [intros H; vm_compute in H; discriminate H |]. intros _.
    split; [reflexivity |]. split; [eexists; reflexivity |].
    destruct (geocode_resolved_text isd repr key (strip (entry ui)) w r)
      as (Hq & Hne & Ht); [rewrite Hg; reflexivity |].
    exists (raw_query r). repeat split; try assumption.
    rewrite Hq. apply strip_idempotent.
  - split; [exact H1 |]. split; [exact H2 |]. discriminate.
Qed.

Lemma do_save_ok ui w :
  dialog_ok ui -> save_enabled ui = true ->
  dialog_ok (fst (snd (do_save home (ui, w)))).
Proof.
  intros Hok Hs. pose proof Hok as (H1 & H2 & H3).
  destruct (H3 Hs) as (_ & _ & r & Hr & Hne & _).
  rewrite (do_save_filled home ui w r Hr Hne).
  destruct (save_override home r w) as [[[]|e] w1]; cbn [fst snd]; exact Hok.
Qed.

Lemma dispatch_ok s e :
  dialog_ok (fst s) -> dialog_ok (fst (dispatch isd repr key home s e)).
Proof.
  intros Hok. unfold dispatch. destruct (destroyed (fst s)); [exact Hok |].
  destruct e; cbn [fst]; try exact Hok.
  - destruct s as [ui w]. apply do_check_ok, Hok.
  - destruct (save_enabled (fst s)) eqn:Hs; [| exact Hok].
    destruct s as [ui w]. apply do_save_ok; assumption.
Qed.

Lemma dialog_invariant evs w :
  dialog_ok (fst (mainloop isd repr key home evs (initial_dialog, w))).
Proof.
  unfold mainloop.
  assert (forall s, dialog_ok (fst s) ->
                    dialog_ok (fst (fold_left (dispatch isd repr key home) evs s)))
    as H.
  { induction evs as [|e rest IH]; intros s Hs; [exact Hs |].
    simpl. apply IH, dispatch_ok, Hs. }
  apply H. exact dialog_ok_initial.
Qed.

(** X24.  Through every run of the dialog (edits, Check, Save, Cancel,
    changes of the world outside, in any order) the status line is never
    blank and never shows "Nothing to save", and whenever Save is open the
    status is "OK", the result line starts with the arrow and the slot
    holds a non-empty, trimmed text that the store can encode. *)
Theorem X24_dialog_invariant evs w :
  dialog_ok (fst (mainloop isd repr key home evs (initial_dialog, w))).
Proof. exact (dialog_invariant evs w). Qed.

(** X25.  An edit of the entry after a successful check does not close
    Save.  In every state the dialog can reach with Save open, after any
    edit and any change outside that leaves the store usable, pressing
    Save closes the window and writes the query that was checked, not what
    the entry holds now. *)
Theorem X25_save_writes_checked_query evs w text w2 :
  let s := mainloop isd repr key home evs (initial_dialog, w) in
  save_enabled (fst s) = true -> destroyed (fst s) = false ->
  can_save home (fs w2) = true ->
  let s' := mainloop isd repr key home [Typed text; Outside w2; SavePressed] s in
  exists raw,
    current_raw (fst s) = Some raw /\ raw <> []
    /\ entry (fst s') = text
    /\ destroyed (fst s') = true
    /\ read_text (fs (snd s')) (OVERRIDE_FILE home) = Some raw.
Proof.
  intros s Hs Hd Hc s'.
  pose proof (dialog_invariant evs w) as (_ & _ & H3). fold s in H3.
  destruct (H3 Hs) as (_ & _ & raw & Hraw & Hne & Ht & Hfix).
  exists raw. split; [exact Hraw |]. split; [exact Hne |].
  assert (s' = snd (do_save home (set_entry text (fst s), w2))) as ->.
  { subst s'. unfold mainloop. cbn [fold_left].
    unfold dispatch at 3. rewrite Hd.
    unfold dispatch at 2. cbn [fst snd set_entry destroyed]. rewrite Hd.
    unfold dispatch. cbn [fst snd set_entry destroyed save_enabled].
    rewrite Hd, Hs. reflexivity. }
  pose proof Ht as Ht'. rewrite <- Hfix in Ht'.
  apply utf8_encode_some in Ht' as [bs He].
  destruct (save_override_ok home raw w2 bs Hc He) as (w3 & Hrun & Hfile & _).
  rewrite (do_save_filled home (set_entry text (fst s)) w2 raw Hraw Hne), Hrun.
  cbn [fst snd fs destroy destroyed entry set_entry].
  split; [reflexivity |]. split; [reflexivity |].
  unfold read_text. rewrite Hfile. rewrite Hfix in He. apply utf8_roundtrip, He.
Qed.

End MainLoopExtras.

(** ** Closed instances of the further properties *)

Lemma X1_is_zip_characters_witness :
  is_zip ascii_isdigit (lit "10115, 49") = true
  /\ exists c, c ∈ lit "90210" /\ c <> COMMA /\ c <> SPACE.
Proof.
  split.
  - apply (X1_is_zip_characters ascii_isdigit (lit "10115, 49")). split.
    + intros c Hc.
      repeat (apply elem_of_cons in Hc as [-> | Hc];
              [vm_compute; auto |]).
      inversion Hc.
    + exists 49. split; [| split; discriminate].
      apply elem_of_cons. left. reflexivity.
  - apply (X1_is_zip_characters ascii_isdigit (lit "90210")). reflexivity.
Defined.

Lemma X3_url_shape_witness :
  exists a,
    quote_plus (lit "Paris, FR") = Ok a
    /\ forall c, c ∈ a -> c ∉ lit "&=?#/ ".
Proof.
  destruct (X3_url_shape ascii_isdigit (lit "KEY") (lit "Paris, FR")
              (lit "https://api.openweathermap.org/geo/1.0/direct?q=Paris%2C+FR&limit=1&appid=KEY")
              ltac:(vm_compute; reflexivity))
    as (a & b & Ha & _ & _ & Hsafe).
  exists a. split; [exact Ha |].
  intros c Hc. apply Hsafe, elem_of_app. left. exact Hc.
Defined.

Lemma X6_blank_input_witness :
  geocode ascii_isdigit opaque_repr KEY [32; 9; 160] (world_answering VNone)
  = (Ok (None, Some MSG_ENTER), world_answering VNone).
Proof.
  destruct (X6_blank_input ascii_isdigit opaque_repr KEY [32; 9; 160]
              (world_answering VNone) eq_refl)
    as [Hiff Hworld].
  apply injective_projections.
  - apply Hiff. reflexivity.
  - apply Hworld. reflexivity.
Defined.

Lemma X7_transport_failure_witness :
  fst (geocode ascii_isdigit opaque_repr KEY (lit "Paris")
         (world_failing (lit "timed out")))
  = Ok (None, Some (lit "Request error: timed out")).
Proof.
  apply (X7_transport_failure ascii_isdigit opaque_repr KEY (lit "Paris")
           (world_failing (lit "timed out"))
           (lit "https://api.openweathermap.org/geo/1.0/direct?q=Paris&limit=1&appid=KEY")
           (lit "timed out")
           eq_refl ltac:(vm_compute; discriminate)
           ltac:(vm_compute; reflexivity) eq_refl).
Defined.

Lemma X8_returns_one_of_witness :
  exists r,
    fst (geocode ascii_isdigit opaque_repr KEY (lit " 90210 ")
           (world_answering (VDict beverly_hills)))
    = Ok (Some r, None)
    /\ raw_query r = lit "90210".
Proof.
  destruct (X8_returns_one_of ascii_isdigit opaque_repr KEY (lit " 90210 ")
              (world_answering (VDict beverly_hills))
              (Some (mkLocation (VStr (lit "Beverly Hills, US"))
                       (VFloat (S754_finite false 4799148352916685 (-47)))
                       (VFloat (S754_finite true 8331659310635418 (-46)))
                       (lit "90210")))
              None ltac:(vm_compute; reflexivity))
    as [[H _] | (r & Hr & _ & Hq)]; [discriminate H |].
  exists r. split; [rewrite <- Hr; vm_compute; reflexivity | exact Hq].
Defined.

Lemma X9_raise_cases_witness :
  exists url first rest,
    upstream (world_answering (VList [VInt 1])) url = Body (VList (first :: rest))
    /\ forall d, first <> VDict d.
Proof.
  destruct (X9_raise_cases ascii_isdigit opaque_repr KEY (lit "Paris")
              (world_answering (VList [VInt 1])) AttributeError
              ltac:(vm_compute; reflexivity))
    as [(H & _) | (_ & _ & url & first & rest & _ & Hup & Hd)];
    [discriminate H |].
  exists url, first, rest. split; [exact Hup | exact Hd].
Defined.

Lemma X10_text_reaches_upstream_witness :
  exists url,
    requests (snd (geocode ascii_isdigit opaque_repr KEY (lit "Paris")
                     (world_failing (lit "timed out"))))
    = [url].
Proof.
  destruct (X10_text_reaches_upstream ascii_isdigit opaque_repr KEY (lit "Paris")
              (world_failing (lit "timed out"))
              eq_refl ltac:(vm_compute; discriminate) eq_refl eq_refl)
    as (url & Hreq & _).
  exists url. exact Hreq.
Defined.

Lemma X11_resolved_query_witness :
  exists bs,
    utf8_encode (lit "90210") = Some bs /\ utf8_decode bs = Some (lit "90210").
Proof.
  destruct (X11_resolved_query ascii_isdigit opaque_repr KEY (lit " 90210 ")
              (world_answering (VDict beverly_hills))
              (mkLocation (VStr (lit "Beverly Hills, US"))
                 (VFloat (S754_finite false 4799148352916685 (-47)))
                 (VFloat (S754_finite true 8331659310635418 (-46)))
                 (lit "90210"))
              ltac:(vm_compute; reflexivity))
    as (_ & _ & _ & bs & He & Hd).
  exists bs. split; [exact He | exact Hd].
Defined.

Lemma X12_save_returns_only_if_witness :
  fs (world_answering VNone) !! OVERRIDE_FILE home_example <> Some Dir
  /\ is_text (strip (lit " 90210 ")) = true.
Proof.
  destruct (X12_save_returns_only_if home_example (lit " 90210 ")
              (world_answering VNone)
              (snd (save_override home_example (lit " 90210 ")
                      (world_answering VNone)))
              ltac:(vm_compute; reflexivity))
    as (_ & Hd & Ht).
  split; [exact Hd | exact Ht].
Defined.

Lemma X13_refused_text_empties_file_witness :
  exists w',
    save_override home_example [55296] (world_answering VNone)
    = (Raise UnicodeEncodeError, w')
    /\ read_text (fs w') (OVERRIDE_FILE home_example) = Some [].
Proof.
  destruct (X13_refused_text_empties_file home_example [55296]
              (world_answering VNone)
              ltac:(vm_compute; reflexivity) ltac:(vm_compute; reflexivity))
    as (w' & Hrun & _ & Hread).
  exists w'. split; [exact Hrun | exact Hread].
Defined.

Lemma X14_save_touches_only_its_file_witness :
  spawned (snd (save_override home_example (lit "90210") world_blocked)) = []
  /\ requests (snd (save_override home_example (lit "90210") world_blocked)) = [].
Proof.
  destruct (X14_save_touches_only_its_file home_example (lit "90210") world_blocked
              ["tmp"%string] ltac:(vm_compute; discriminate))
    as (_ & Hreq & Hsp & _).
  split; [exact Hsp | exact Hreq].
Defined.

Lemma X15_blocked_by_a_file_witness :
  exists e w',
    save_override home_example (lit "90210") world_blocked = (Raise e, w')
    /\ (e = FileExistsError \/ e = NotADirectoryError).
Proof.
  destruct (X15_blocked_by_a_file home_example (lit "90210") world_blocked
              (CACHE_DIR home_example)
              (cache_dir_in_chain home_example) eq_refl)
    as (e & w' & Hrun & He & _).
  exists e, w'. split; [exact Hrun | exact He].
Defined.

Lemma X16_blocked_by_a_directory_witness :
  exists w',
    save_override home_example (lit "90210") world_override_is_dir
    = (Raise IsADirectoryError, w').
Proof.
  destruct (X16_blocked_by_a_directory home_example (lit "90210")
              world_override_is_dir
              ltac:(vm_compute; reflexivity) ltac:(vm_compute; reflexivity))
    as (w' & Hrun & _).
  exists w'. exact Hrun.
Defined.

Lemma X17_do_check_outcome_witness :
  status_var (fst (snd (do_check ascii_isdigit opaque_repr KEY
                          (set_entry (lit " 90210 ") initial_dialog,
                           world_answering (VDict beverly_hills)))))
  = MSG_OK
  /\ current_raw (fst (snd (do_check ascii_isdigit opaque_repr KEY
                              (set_entry (lit "Paris") dialog_checked,
                               world_failing (lit "timed out")))))
     = Some (lit "90210").
Proof.
  split.
  - destruct (X17_do_check_outcome ascii_isdigit opaque_repr KEY
                (set_entry (lit " 90210 ") initial_dialog)
                (world_answering (VDict beverly_hills)))
      as (_ & _ & _ & _ & Hiff & Hopen & _).
    apply Hopen, Hiff. eexists. vm_compute. reflexivity.
  - destruct (X17_do_check_outcome ascii_isdigit opaque_repr KEY
                (set_entry (lit "Paris") dialog_checked)
                (world_failing (lit "timed out")))
      as (_ & _ & _ & _ & _ & _ & Hclosed).
    apply Hclosed. vm_compute. reflexivity.
Defined.

Lemma X18_do_check_guards_witness :
  fst (snd (do_check ascii_isdigit opaque_repr None
              (set_entry (lit "90210") initial_dialog, world_answering VNone)))
  = set_status MSG_MISSING_KEY (cleared (set_entry (lit "90210") initial_dialog))
  /\ fst (snd (do_check ascii_isdigit opaque_repr KEY
                 (set_entry (lit "   ") initial_dialog, world_answering VNone)))
     = set_status MSG_ENTER (cleared (set_entry (lit "   ") initial_dialog)).
Proof.
  split.
  - rewrite (proj1 (X18_do_check_guards ascii_isdigit opaque_repr None
                      (set_entry (lit "90210") initial_dialog)
                      (world_answering VNone)) eq_refl).
    reflexivity.
  - rewrite (proj2 (X18_do_check_guards ascii_isdigit opaque_repr KEY
                      (set_entry (lit "   ") initial_dialog)
                      (world_answering VNone)) eq_refl eq_refl).
    reflexivity.
Defined.

Lemma X20_do_save_empty_slot_witness :
  do_save home_example (initial_dialog, world_answering VNone)
  = (Ok tt, (set_status MSG_NOTHING initial_dialog, world_answering VNone)).
Proof.
  apply (X20_do_save_empty_slot home_example initial_dialog (world_answering VNone)).
  left. reflexivity.
Defined.

Lemma X21_do_save_effects_witness :
  exists w',
    do_save home_example (dialog_checked, world_answering VNone)
    = (Ok tt, (destroy dialog_checked, w'))
    /\ (exists seen, spawned w' = [(PKILL_ARGV, seen)]
                     /\ read_text seen (OVERRIDE_FILE home_example)
                        = Some (lit "90210")).
Proof.
  destruct (X21_do_save_effects home_example dialog_checked (world_answering VNone)
              (lit "90210")
              (snd (save_override home_example (lit "90210") (world_answering VNone)))
              eq_refl ltac:(vm_compute; discriminate)
              ltac:(vm_compute; reflexivity))
    as (w' & Hrun & _ & Hread & _ & Hsp).
  exists w'. split; [exact Hrun |].
  eexists. split; [exact Hsp | exact Hread].
Defined.


Lemma X23_check_then_save_witness :
  exists ui' w2,
    do_save home_example (ui', snd (geocode ascii_isdigit opaque_repr KEY
                                      (lit "90210")
                                      (world_answering (VDict beverly_hills))))
    = (Ok tt, (destroy ui', w2))
    /\ read_text (fs w2) (OVERRIDE_FILE home_example) = Some (lit "90210").
Proof.
  destruct (X23_check_then_save ascii_isdigit opaque_repr KEY home_example
              (set_entry (lit " 90210 ") initial_dialog)
              (world_answering (VDict beverly_hills))
              (mkLocation (VStr (lit "Beverly Hills, US"))
                 (VFloat (S754_finite false 4799148352916685 (-47)))
                 (VFloat (S754_finite true 8331659310635418 (-46)))
                 (lit "90210"))
              (snd (geocode ascii_isdigit opaque_repr KEY (lit "90210")
                      (world_answering (VDict beverly_hills))))
              ltac:(vm_compute; reflexivity) ltac:(vm_compute; reflexivity))
    as (ui' & w2 & _ & _ & Hsave & Hread & _).
  exists ui', w2. split; [exact Hsave | exact Hread].
Defined.

Lemma X25_save_writes_checked_query_witness :
  exists raw,
    current_raw
      (fst (mainloop ascii_isdigit opaque_repr KEY home_example
              [Typed (lit "90210"); CheckPressed]
              (initial_dialog, world_answering (VDict beverly_hills))))
    = Some raw
    /\ read_text
         (fs (snd (mainloop ascii_isdigit opaque_repr KEY home_example
                     [Typed (lit "Paris"); Outside (world_answering VNone);
                      SavePressed]
                     (mainloop ascii_isdigit opaque_repr KEY home_example
                        [Typed (lit "90210"); CheckPressed]
                        (initial_dialog, world_answering (VDict beverly_hills))))))
         (OVERRIDE_FILE home_example)
       = Some raw.
Proof.
  destruct (X25_save_writes_checked_query ascii_isdigit opaque_repr KEY home_example
              [Typed (lit "90210"); CheckPressed]
              (world_answering (VDict beverly_hills))
              (lit "Paris") (world_answering VNone)
              ltac:(vm_compute; reflexivity) ltac:(vm_compute; reflexivity)
              ltac:(vm_compute; reflexivity))
    as (raw & Hraw & _ & _ & _ & Hread).
  exists raw. split; [exact Hraw | exact Hread].
Defined.
